(** * flask_siox.events: the event-description object model

    A shallow embedding of [src/flask_siox/events.py] ([BaseEvent], [Event],
    [ClientEvent], [ServerEvent], [DuplexEvent]).  Python objects become
    records, methods become functions that take and return the receiver,
    exceptions become an error result and the calls that reach the outside
    world (the user's handler, the transport's [emit]) are recorded in a log. *)

From Stdlib Require Import String List Bool ZArith Lia.
Import ListNotations.
Set Warnings "-register-all".
Local Open Scope string_scope.
Local Open Scope list_scope.

(** ** Python values *)

(** The values that flow through the events.  Dictionaries keep insertion
    order and have string keys (every dictionary of this module is a
    document, a payload or a keyword-argument mapping). *)
Inductive Value : Type :=
| VNone
| VBool (b : bool)
| VInt (z : Z)
| VStr (s : string)
| VList (items : list Value)
| VTuple (items : list Value)
| VDict (entries : list (string * Value))
| VInstance (cls : string) (fields : list (string * Value))
| VFunction (qualname : string)
| VObject (cls : string).

Definition Dict := list (string * Value).

(** [x is None] *)
Definition is_none (v : Value) : bool :=
  match v with VNone => true | _ => false end.

(** [isinstance(result, Sequence)]: lists, tuples and strings are sequences;
    dictionaries, numbers, [None], functions and model instances are not. *)
Definition is_sequence (v : Value) : bool :=
  match v with
  | VList _ | VTuple _ | VStr _ => true
  | _ => false
  end.

Fixpoint chars (s : string) : list Value :=
  match s with
  | EmptyString => []
  | String c rest => VStr (String c EmptyString) :: chars rest
  end.

(** Iterating a sequence. *)
Definition elements (v : Value) : list Value :=
  match v with
  | VList l | VTuple l => l
  | VStr s => chars s
  | _ => []
  end.

(** ** Dictionaries *)

Fixpoint dict_get (k : string) (d : Dict) : option Value :=
  match d with
  | [] => None
  | (k', v) :: rest => if String.eqb k k' then Some v else dict_get k rest
  end.

Definition dict_has (k : string) (d : Dict) : bool :=
  match dict_get k d with Some _ => true | None => false end.

(** [d[k] = v]: an existing key keeps its place, a new key goes last. *)
Fixpoint dict_set (k : string) (v : Value) (d : Dict) : Dict :=
  match d with
  | [] => [(k, v)]
  | (k', v') :: rest =>
      if String.eqb k k' then (k, v) :: rest else (k', v') :: dict_set k v rest
  end.

(** [d.update(other)], also [dict(d, **other)]. *)
Definition dict_update (d other : Dict) : Dict :=
  fold_left (fun acc kv => dict_set (fst kv) (snd kv) acc) other d.

(** [x or {}] for an optional dictionary. *)
Definition or_empty (d : option Dict) : Dict :=
  match d with Some d' => d' | None => [] end.

(** ** Exceptions and results *)

Inductive Exn : Type :=
| AttributeError (what : string)
| TypeError (what : string)
| ValidationError (what : string)
| NotImplementedError.

Inductive Result (A : Type) : Type :=
| Ok (a : A)
| Err (e : Exn).
Arguments Ok {A} a.
Arguments Err {A} e.

Definition rbind {A B} (r : Result A) (k : A -> Result B) : Result B :=
  match r with Ok a => k a | Err e => Err e end.

Fixpoint rmap {A B} (f : A -> Result B) (l : list A) : Result (list B) :=
  match l with
  | [] => Ok []
  | x :: rest =>
      rbind (f x) (fun y => rbind (rmap f rest) (fun ys => Ok (y :: ys)))
  end.

(** A call that unpacks two keyword mappings, as in [f( **a, **b )]: a key
    given twice is a [TypeError] at the call, which names the first key of
    the second mapping that the first one already gave. *)
Fixpoint first_shared_key (a b : Dict) : option string :=
  match b with
  | [] => None
  | (k, _) :: rest => if dict_has k a then Some k else first_shared_key a rest
  end.

Definition merge_kwargs (a b : Dict) : Result Dict :=
  match first_shared_key a b with
  | Some k => Err (TypeError ("got multiple values for keyword argument " ++ k))
  | None => Ok (a ++ b)
  end.

(** ** Calls that leave the module *)

(** What [flask_socketio.emit(event, data, to=, include_self=, namespace=)]
    is called with. *)
Record EmitCall : Type := {
  emit_event : option string;
  emit_data : Value;
  emit_to : option string;
  emit_include_self : bool;
  emit_namespace : option string
}.

Inductive Effect : Type :=
| Called (fn : string) (args : list Value) (kwargs : Dict)
| Emitted (call : EmitCall).

(** A computation: the calls it made, in order, and how it ended.  The log is
    kept when an exception ends the computation. *)
Definition M (A : Type) : Type := (list Effect * Result A)%type.

Definition ret {A} (a : A) : M A := ([], Ok a).
Definition raise {A} (e : Exn) : M A := ([], Err e).
Definition lift {A} (r : Result A) : M A := ([], r).
Definition tell (ev : Effect) : M unit := ([ev], Ok tt).

Definition bind {A B} (m : M A) (k : A -> M B) : M B :=
  match m with
  | (log, Ok a) => let (log', r) := k a in (log ++ log', r)
  | (log, Err e) => (log, Err e)
  end.

Declare Scope py_scope.
Delimit Scope py_scope with py.
Notation "x <- m ;; k" := (bind m (fun x => k))
  (at level 61, m at next level, right associativity) : py_scope.
Notation "m ;;; k" := (bind m (fun _ => k))
  (at level 61, right associativity) : py_scope.

(** A user function: its [__name__] and what a call with positional and keyword
    arguments
    does.  Calling it is recorded. *)
Record PyFunction : Type := {
  fn_name : string;
  fn_body : list Value -> Dict -> M Value
}.

Definition call_function (f : PyFunction) (args : list Value) (kwargs : Dict) : M Value :=
  (tell (Called (fn_name f) args kwargs) ;;; fn_body f args kwargs)%py.

(** An attribute of an object under construction: not assigned yet, or
    assigned. *)
Inductive Attr (A : Type) : Type :=
| Unset
| Bound (a : A).
Arguments Unset {A}.
Arguments Bound {A} a.

Definition getattr {A} (cls attr : string) (x : Attr A) : Result A :=
  match x with
  | Bound a => Ok a
  | Unset =>
      Err (AttributeError ("'" ++ cls ++ "' object has no attribute '" ++ attr ++ "'"))
  end.

(** Attribute access on a value that may be [None]. *)
Definition deref {A} (attr : string) (x : option A) : Result A :=
  match x with
  | Some a => Ok a
  | None => Err (AttributeError ("'NoneType' object has no attribute '" ++ attr ++ "'"))
  end.

(** [str(x)] inside an f-string, for an optional string. *)
Definition format_opt (x : option string) : string :=
  match x with Some s => s | None => "None" end.

(** ** The collaborators outside the repository *)

(** The keyword arguments of pydantic's [.dict(...)] that the events store
    ([_ack_kwargs], [_emit_kwargs]). *)
Record DictKwargs : Type := {
  exclude_none : bool;
  include : option (list string);
  exclude : option (list string);
  by_alias : bool
}.

(** [instance.dict()] with no argument. *)
Definition dict_defaults : DictKwargs :=
  {| exclude_none := false; include := None; exclude := None; by_alias := false |}.

(** The schema layer (pydantic's [BaseModel] classes), section 6 of the
    specification: (a) parse and validate from a mapping, (b) render and
    validate to a mapping under options, (c) an optional declared display
    name next to the type's own name.  The events only hold a reference to
    a schema; everything they know about it goes through this interface. *)
Class SchemaLayer : Type := {
  Model : Type;
  (** [getattr(model, "name", None)] *)
  model_name_attr : Model -> option string;
  (** [model.__name__] *)
  model_type_name : Model -> string;
  (** [model.parse_obj(data)] *)
  parse_obj : Model -> Value -> Result Value;
  (** calling the class with keyword arguments *)
  model_new : Model -> Dict -> Result Value;
  (** [instance.dict] called with these keyword arguments *)
  model_dict : Value -> DictKwargs -> Dict;
  (** capability (b): validate a result against the schema and serialise it *)
  model_render : Model -> Value -> DictKwargs -> Result Value;
  (** the class after [model.Config.allow_population_by_field_name = True] *)
  allow_population_by_field_name : Model -> Model
}.

(** The transport ([flask_socketio.emit]): what the call gives back. *)
Class Transport : Type := {
  socketio_emit : EmitCall -> Result Value
}.

(** [x is not False] and [x is True] for an optional flag. *)
Definition is_not_false (x : option bool) : bool :=
  match x with Some false => false | _ => true end.

Definition is_true (x : option bool) : bool :=
  match x with Some true => true | _ => false end.

(** The dictionary both [ClientEvent] and [ServerEvent] build from their
    [include], [exclude] and [exclude_none] arguments. *)
Definition make_kwargs (include exclude : option (list string))
    (exclude_none : option bool) : DictKwargs :=
  {| exclude_none := is_not_false exclude_none;
     include := include;
     exclude := exclude;
     by_alias := true |}.

(** ** flask_siox/utils.py *)

(** Modelled from the spec: [remove_none] of flask_siox/utils.py, which is not
    under src/.  "Extra fields ... are merged in, override taking
    precedence; fields with absent/empty values are dropped from the
    result": the keyword arguments are merged over the base dictionary and
    the keys whose value is [None] are dropped. *)
Definition remove_none (data kwargs : Dict) : Dict :=
  filter (fun kv => negb (is_none (snd kv))) (dict_update data kwargs).

Section Utils.
Context `{SchemaLayer}.

(** Modelled from the spec: [render_model] of flask_siox/utils.py, which is
    not under src/.  "the single result is validated/serialized as one
    object": the schema layer's capability (b) with the given options. *)
Definition render_model (model : Model) (data : Value) (kwargs : DictKwargs)
  : Result Value :=
  model_render model data kwargs.

(** Modelled from the spec: [unpack_params] of flask_siox/utils.py, which is
    not under src/.  "each element is validated/serialized independently
    against the acknowledgment schema": the elements are rendered one by
    one, in order; the first failure ends the call. *)
Definition unpack_params (model : Model) (result : Value) (kwargs : DictKwargs)
  : Result (list Value) :=
  rmap (fun element => render_model model element kwargs) (elements result).

(** Modelled from the spec: [render_packed] of flask_siox/utils.py, which is
    not under src/.  "the results are packed into a structured multi-value
    acknowledgment": the rendered elements, in order, as one tuple. *)
Definition render_packed (rendered : list Value) : Value :=
  VTuple rendered.
End Utils.

(** ** BaseEvent and Event *)

(** [BaseEvent] is abstract ("do not instantiate!"): its three methods raise
    [NotImplementedError], and every class below overrides them.  Its
    [__init__] is inlined in each subclass's constructor, where the call
    [self.attach_name(name)] dispatches to that subclass's method. *)
Module BaseEvent.

Definition attach_name {A} (self : A) (name : option string) : Result A :=
  Err NotImplementedError.

Definition attach_namespace {A} (self : A) (namespace : option string) : Result A :=
  Err NotImplementedError.

Definition create_doc {A} (self : A) (namespace : option string)
    (additional_docs : option Dict) : Result Dict :=
  Err NotImplementedError.

End BaseEvent.

Module Event.
Section WithSchemas.
Context `{SchemaLayer}.

Record t : Type := {
  name : option string;
  namespace : option string;
  additional_docs : option Dict;
  model : Model;
  description : option string
}.

Definition attach_name (self : t) (new_name : option string) : t :=
  {| name := new_name;
     namespace := namespace self;
     additional_docs := additional_docs self;
     model := model self;
     description := description self |}.

Definition attach_namespace (self : t) (new_namespace : option string) : t :=
  {| name := name self;
     namespace := new_namespace;
     additional_docs := additional_docs self;
     model := model self;
     description := description self |}.

Definition set_model (self : t) (new_model : Model) : t :=
  {| name := name self;
     namespace := namespace self;
     additional_docs := additional_docs self;
     model := new_model;
     description := description self |}.

(** [Event.__init__(model, namespace, name, description, additional_docs)].
    [BaseEvent.__init__] sets [name] to [None], stores the namespace and the
    extras, and calls [attach_name] when a name was given; [model] and
    [description] are assigned afterwards ([Event.attach_name] reads
    neither). *)
Definition __init__ (model : Model) (namespace name description : option string)
    (additional_docs : option Dict) : t :=
  let self :=
    {| name := None;
       namespace := namespace;
       additional_docs := additional_docs;
       model := model;
       description := description |} in
  match name with
  | Some _ => attach_name self name
  | None => self
  end.

(** [getattr(self.model, "name", None) or self.model.__name__]: an empty
    declared name is falsy and falls back to the type's name too. *)
Definition model_name (self : t) : string :=
  match model_name_attr (model self) with
  | Some EmptyString | None => model_type_name (model self)
  | Some declared => declared
  end.

Definition of_opt_string (x : option string) : Value :=
  match x with Some s => VStr s | None => VNone end.

(** [create_doc(self, namespace=None, additional_docs=None)]; the two
    arguments are [ns] and [extra_docs] here, the fields keep their names. *)
Definition create_doc (self : t) (ns : option string)
    (extra_docs : option Dict) : Result Dict :=
  let model_name := model_name self in
  let ns :=
    match ns with
    | None => namespace self
    | Some _ => ns
    end in
  rbind (merge_kwargs (or_empty (additional_docs self)) (or_empty extra_docs))
    (fun kwargs =>
       Ok (remove_none
             [("description", of_opt_string (description self));
              ("tags",
               VList match ns with
                     | None => [VDict [("name", VStr ("namespace-" ++ format_opt ns))]]
                     | Some _ => []
                     end);
              ("message", VDict [("$ref", VStr ("#/components/messages/" ++ model_name))])]
             kwargs)).

End WithSchemas.
End Event.

(** ** ClientEvent *)

(** The function objects a [ClientEvent] can hold in [self.handler].  The
    closures capture [self] by reference: they read the event's fields when
    they are called, not when they are made. *)
Inductive Callable : Type :=
| UserFunction (f : PyFunction)
    (** a function of the application *)
| HandlerInner (with_ack : bool) (function : Callable)
    (** one of the two [_handler_inner] closures of [ClientEvent._handler] *)
| AckLambda
    (** [lambda data=None: self._ack_response(self.handler)] of [attach_ack] *)
| DuplexHandler (function : Callable).
    (** [duplex_handler] of [DuplexEvent.bind]; the pair it captures is
        passed on as the opaque object [VObject "DuplexEvent"] *)

(** [__name__]; [functools.wraps] copies it from the wrapped function. *)
Fixpoint callable_name (c : Callable) : string :=
  match c with
  | UserFunction f => fn_name f
  | HandlerInner _ function => callable_name function
  | AckLambda => "<lambda>"
  | DuplexHandler function => callable_name function
  end.

(** A function object passed around as a value. *)
Definition function_object (c : Callable) : Value :=
  VFunction (callable_name c).

(** Binding the arguments of a call to the signature [(data=None)]. *)
Definition data_argument (args : list Value) (kwargs : Dict) : Result Value :=
  match args, kwargs with
  | [], [] => Ok VNone
  | [data], [] => Ok data
  | [], [(key, data)] =>
      if String.eqb key "data" then Ok data
      else Err (TypeError ("got an unexpected keyword argument " ++ key))
  | _, _ => Err (TypeError "wrong arguments for (data=None)")
  end.

Module ClientEvent.
Section WithSchemas.
Context `{SchemaLayer}.

Record t : Type := {
  event : Event.t;
  _ack_kwargs : DictKwargs;
  handler : option Callable;
  ack_model : option Model;
  force_wrap : bool
}.

Definition __init__ (model : Model) (ack_model : option Model)
    (namespace name description : option string) (handler : option Callable)
    (include exclude : option (list string)) (force_wrap exclude_none : option bool)
    (additional_docs : option Dict) : t :=
  {| event := Event.__init__ model namespace name description additional_docs;
     _ack_kwargs := make_kwargs include exclude exclude_none;
     handler := handler;
     ack_model := ack_model;
     force_wrap := is_true force_wrap |}.

Definition set_event (self : t) (e : Event.t) : t :=
  {| event := e;
     _ack_kwargs := _ack_kwargs self;
     handler := handler self;
     ack_model := ack_model self;
     force_wrap := force_wrap self |}.

Definition set_handler (self : t) (h : option Callable) : t :=
  {| event := event self;
     _ack_kwargs := _ack_kwargs self;
     handler := h;
     ack_model := ack_model self;
     force_wrap := force_wrap self |}.

(** Inherited from [Event]. *)
Definition attach_name (self : t) (name : option string) : t :=
  set_event self (Event.attach_name (event self) name).

Definition attach_namespace (self : t) (namespace : option string) : t :=
  set_event self (Event.attach_namespace (event self) namespace).

(** [self.model.parse_obj(data).dict()] *)
Definition parse (self : t) (data : Value) : Result Dict :=
  rbind (parse_obj (Event.model (event self)) data)
    (fun instance => Ok (model_dict instance dict_defaults)).

(** The helpers of flask_siox/utils.py are handed [self.ack_model]; with no
    acknowledgment schema there is no class to validate against and the
    rendering fails. *)
Definition _ack_response (self : t) (result : Value) : Result Value :=
  rbind (deref "parse_obj" (ack_model self)) (fun ack =>
    if is_sequence result then
      rbind (unpack_params ack result (_ack_kwargs self))
        (fun rendered => Ok (render_packed rendered))
    else
      rbind (render_model ack result (_ack_kwargs self))
        (fun result =>
           Ok (if force_wrap self then VDict [("data", result)] else result))).

(** Which [_handler_inner] is made is decided when [_handler] runs. *)
Definition _handler (self : t) (function : Callable) : Callable :=
  match ack_model self with
  | None => HandlerInner false function
  | Some _ => HandlerInner true function
  end.

Definition bind (self : t) (function : Callable) : t :=
  set_handler self (Some (_handler self function)).

Definition attach_ack (self : t) (ack_model : option Model)
    (include exclude : option (list string)) (force_wrap exclude_none : option bool) : t :=
  let self :=
    {| event := event self;
       _ack_kwargs := make_kwargs include exclude exclude_none;
       handler := handler self;
       ack_model := ack_model;
       force_wrap := is_true force_wrap |} in
  match handler self with
  | Some _ => set_handler self (Some AckLambda)
  | None => self
  end.

(** [self.handler] read as a value, as the lambda of [attach_ack] does. *)
Definition handler_object (self : t) : Value :=
  match handler self with
  | Some h => function_object h
  | None => VNone
  end.

(** Calling a function object of the event [self], whose fields are read at
    the time of the call. *)
Fixpoint call (self : t) (c : Callable) (args : list Value) (kwargs : Dict) : M Value :=
  match c with
  | UserFunction f => call_function f args kwargs
  | HandlerInner with_ack function =>
      (data <- lift (data_argument args kwargs) ;;
       parsed <- lift (parse self data) ;;
       result <- call self function [] parsed ;;
       if with_ack then lift (_ack_response self result) else ret result)%py
  | AckLambda =>
      (_ <- lift (data_argument args kwargs) ;;
       lift (_ack_response self (handler_object self)))%py
  | DuplexHandler function =>
      (kwargs <- lift (merge_kwargs [("event", VObject "DuplexEvent")] kwargs) ;;
       call self function args kwargs)%py
  end.

(** The transport invoking the stored handler with the incoming data. *)
Definition invoke (self : t) (data : Value) : M Value :=
  match handler self with
  | Some h => call self h [data] []
  | None => raise (TypeError "'NoneType' object is not callable")
  end.

Definition create_doc (self : t) (namespace : option string)
    (additional_docs : option Dict) : Result Dict :=
  rbind (Event.create_doc (event self) namespace additional_docs)
    (fun doc => Ok [("publish", VDict doc)]).

End WithSchemas.
End ClientEvent.

(** ** ServerEvent *)

Module ServerEvent.
Section WithSchemas.
Context `{SchemaLayer} `{Transport}.

Record t : Type := {
  event : Event.t;
  _emit_kwargs : DictKwargs
}.

(** The last statement sets [allow_population_by_field_name] on the schema
    class's [Config]. *)
Definition __init__ (model : Model) (namespace name description : option string)
    (include exclude : option (list string)) (exclude_none : option bool)
    (additional_docs : option Dict) : t :=
  let base := Event.__init__ model namespace name description additional_docs in
  {| event := Event.set_model base (allow_population_by_field_name (Event.model base));
     _emit_kwargs := make_kwargs include exclude exclude_none |}.

Definition set_event (self : t) (e : Event.t) : t :=
  {| event := e; _emit_kwargs := _emit_kwargs self |}.

(** Inherited from [Event]. *)
Definition attach_name (self : t) (name : option string) : t :=
  set_event self (Event.attach_name (event self) name).

Definition attach_namespace (self : t) (namespace : option string) : t :=
  set_event self (Event.attach_namespace (event self) namespace).

Definition _emit (self : t) (data : Value) (namespace room : option string)
    (include_self : bool) : M Value :=
  let call :=
    {| emit_event := Event.name (event self);
       emit_data := data;
       emit_to := room;
       emit_include_self := include_self;
       emit_namespace := namespace |} in
  (tell (Emitted call) ;;; lift (socketio_emit call))%py.

Definition emit (self : t) (_room : option string) (_include_self : bool)
    (_data : Value) (_namespace : option string) (kwargs : Dict) : M Value :=
  (_data <- lift (if is_none _data
                  then model_new (Event.model (event self)) kwargs
                  else Ok _data) ;;
   rendered <- lift (render_model (Event.model (event self)) _data (_emit_kwargs self)) ;;
   _emit self rendered _namespace _room _include_self)%py.

Definition create_doc (self : t) (namespace : option string)
    (additional_docs : option Dict) : Result Dict :=
  rbind (Event.create_doc (event self) namespace additional_docs)
    (fun doc => Ok [("subscribe", VDict doc)]).

End WithSchemas.
End ServerEvent.

(** ** DuplexEvent *)

(** [bool(use_event)] *)
Definition truthy (x : option bool) : bool :=
  match x with Some true => true | _ => false end.

Module DuplexEvent.
Section WithSchemas.
Context `{SchemaLayer} `{Transport}.

(** The attributes that [__init__] assigns after [BaseEvent.__init__] has
    returned are [Unset] until then. *)
Record t : Type := {
  name : option string;
  namespace : option string;
  additional_docs : option Dict;
  client_event : Attr (option ClientEvent.t);
  server_event : Attr (option ServerEvent.t);
  description : Attr (option string);
  use_event : Attr bool
}.

Definition set_name (self : t) (new_name : option string) : t :=
  {| name := new_name;
     namespace := namespace self;
     additional_docs := additional_docs self;
     client_event := client_event self;
     server_event := server_event self;
     description := description self;
     use_event := use_event self |}.

Definition set_namespace (self : t) (new_namespace : option string) : t :=
  {| name := name self;
     namespace := new_namespace;
     additional_docs := additional_docs self;
     client_event := client_event self;
     server_event := server_event self;
     description := description self;
     use_event := use_event self |}.

Definition set_client_event (self : t) (ce : option ClientEvent.t) : t :=
  {| name := name self;
     namespace := namespace self;
     additional_docs := additional_docs self;
     client_event := Bound ce;
     server_event := server_event self;
     description := description self;
     use_event := use_event self |}.

Definition set_server_event (self : t) (se : option ServerEvent.t) : t :=
  {| name := name self;
     namespace := namespace self;
     additional_docs := additional_docs self;
     client_event := client_event self;
     server_event := Bound se;
     description := description self;
     use_event := use_event self |}.

(** The three assignments run in order; each child is looked up on [self]
    and then written to. *)
Definition attach_name (self : t) (new_name : option string) : Result t :=
  let self := set_name self new_name in
  rbind (getattr "DuplexEvent" "client_event" (client_event self)) (fun ce =>
  rbind (deref "name" ce) (fun ce =>
  let self := set_client_event self (Some (ClientEvent.attach_name ce new_name)) in
  rbind (getattr "DuplexEvent" "server_event" (server_event self)) (fun se =>
  rbind (deref "name" se) (fun se =>
  Ok (set_server_event self (Some (ServerEvent.attach_name se new_name))))))).

Definition attach_namespace (self : t) (new_namespace : option string) : Result t :=
  let self := set_namespace self new_namespace in
  rbind (getattr "DuplexEvent" "client_event" (client_event self)) (fun ce =>
  rbind (deref "namespace" ce) (fun ce =>
  let self := set_client_event self (Some (ClientEvent.attach_namespace ce new_namespace)) in
  rbind (getattr "DuplexEvent" "server_event" (server_event self)) (fun se =>
  rbind (deref "namespace" se) (fun se =>
  Ok (set_server_event self (Some (ServerEvent.attach_namespace se new_namespace))))))).

(** The four assignments that end [__init__]. *)
Definition assign_fields (self : t) (ce : option ClientEvent.t)
    (se : option ServerEvent.t) (descr : option string) (flag : bool) : t :=
  {| name := name self;
     namespace := namespace self;
     additional_docs := additional_docs self;
     client_event := Bound ce;
     server_event := Bound se;
     description := Bound descr;
     use_event := Bound flag |}.

(** [BaseEvent.__init__] runs first, on an object that has no [client_event]
    yet, and calls [self.attach_name(name)] when a name was given. *)
Definition __init__ (client_event : option ClientEvent.t)
    (server_event : option ServerEvent.t) (use_event : option bool)
    (namespace name description : option string) (additional_docs : option Dict)
    : Result t :=
  let self :=
    {| name := None;
       namespace := namespace;
       additional_docs := additional_docs;
       client_event := Unset;
       server_event := Unset;
       description := Unset;
       use_event := Unset |} in
  rbind (match name with
         | Some _ => attach_name self name
         | None => Ok self
         end)
    (fun self =>
       Ok (assign_fields self client_event server_event description (truthy use_event))).

(** [cls(ClientEvent(...), ServerEvent(...), use_event, namespace, name,
    description, additional_docs)], every argument positional and in the
    order of the source.  Both children refer to the one schema class, whose
    [Config] the [ServerEvent] constructor has written to by the time the
    pair exists. *)
Definition similar (model : Model) (ack_model : option Model) (use_event : option bool)
    (name description namespace : option string) (handler : option Callable)
    (include exclude : option (list string)) (exclude_none : option bool)
    (ack_include ack_exclude : option (list string)) (ack_exclude_none : option bool)
    (ack_force_wrap : option bool) (additional_docs : option Dict) : Result t :=
  let client :=
    ClientEvent.__init__ model ack_model namespace name description handler
      ack_include ack_exclude ack_force_wrap ack_exclude_none None in
  let server :=
    ServerEvent.__init__ model name namespace description include exclude
      exclude_none None in
  let client :=
    ClientEvent.set_event client
      (Event.set_model (ClientEvent.event client)
         (Event.model (ServerEvent.event server))) in
  __init__ (Some client) (Some server) use_event namespace name description
    additional_docs.

Definition emit (self : t) (_room : option string) (_include_self : bool)
    (_data : Value) (_namespace : option string) (kwargs : Dict) : M Value :=
  (se <- lift (getattr "DuplexEvent" "server_event" (server_event self)) ;;
   se <- lift (deref "emit" se) ;;
   ServerEvent.emit se _room _include_self _data _namespace kwargs)%py.

(** [ClientEvent.bind] returns [None]; the receiver is what changes. *)
Definition bind (self : t) (function : Callable) : Result t :=
  rbind (getattr "DuplexEvent" "use_event" (use_event self)) (fun flag =>
  let function := if flag then DuplexHandler function else function in
  rbind (getattr "DuplexEvent" "client_event" (client_event self)) (fun ce =>
  rbind (deref "bind" ce) (fun ce =>
  Ok (set_client_event self (Some (ClientEvent.bind ce function)))))).

(** The caller's dictionary is updated in place before anything else: the
    first component is that dictionary after the call. *)
Definition create_doc (self : t) (ns : option string) (extra_docs : option Dict)
    : option Dict * Result Dict :=
  match extra_docs with
  | None => (None, Err (AttributeError "'NoneType' object has no attribute 'update'"))
  | Some docs =>
      let docs := dict_update docs (or_empty (additional_docs self)) in
      (Some docs,
       rbind (getattr "DuplexEvent" "client_event" (client_event self)) (fun ce =>
       rbind (deref "create_doc" ce) (fun ce =>
       rbind (ClientEvent.create_doc ce ns (Some docs)) (fun result =>
       rbind (getattr "DuplexEvent" "server_event" (server_event self)) (fun se =>
       rbind (deref "create_doc" se) (fun se =>
       rbind (ServerEvent.create_doc se ns (Some docs)) (fun server_doc =>
       let result := dict_update result server_doc in
       rbind (getattr "DuplexEvent" "description" (description self)) (fun descr =>
       Ok match descr with
          | Some text => dict_set "description" (VStr text) result
          | None => result
          end))))))))
  end.

End WithSchemas.
End DuplexEvent.

(** ** Sequences of operations on a pair *)

(** The methods of a [DuplexEvent] that write to it. *)
Inductive PairOp : Type :=
| OpAttachName (name : option string)
| OpAttachNamespace (namespace : option string)
| OpBind (function : Callable).

Section PairOps.
Context `{SchemaLayer} `{Transport}.

Definition run_op (self : DuplexEvent.t) (op : PairOp) : Result DuplexEvent.t :=
  match op with
  | OpAttachName name => DuplexEvent.attach_name self name
  | OpAttachNamespace namespace => DuplexEvent.attach_namespace self namespace
  | OpBind function => DuplexEvent.bind self function
  end.

Fixpoint run_ops (ops : list PairOp) (self : DuplexEvent.t) : Result DuplexEvent.t :=
  match ops with
  | [] => Ok self
  | op :: rest => rbind (run_op self op) (run_ops rest)
  end.

(** The children's identity fields, when the child is there. *)
Definition client_field {A} (field : Event.t -> A) (self : DuplexEvent.t) : option A :=
  match DuplexEvent.client_event self with
  | Bound (Some ce) => Some (field (ClientEvent.event ce))
  | _ => None
  end.

Definition server_field {A} (field : Event.t -> A) (self : DuplexEvent.t) : option A :=
  match DuplexEvent.server_event self with
  | Bound (Some se) => Some (field (ServerEvent.event se))
  | _ => None
  end.

(** A pair as [__init__] leaves it, with both children given. *)
Definition assigned (self : DuplexEvent.t) : Prop :=
  (exists ce, DuplexEvent.client_event self = Bound (Some ce)) /\
  (exists se, DuplexEvent.server_event self = Bound (Some se)) /\
  (exists flag, DuplexEvent.use_event self = Bound flag).

(** Both children carry the pair's name, respectively its namespace. *)
Definition names_agree (self : DuplexEvent.t) : Prop :=
  assigned self /\
  client_field Event.name self = Some (DuplexEvent.name self) /\
  server_field Event.name self = Some (DuplexEvent.name self).

Definition namespaces_agree (self : DuplexEvent.t) : Prop :=
  assigned self /\
  client_field Event.namespace self = Some (DuplexEvent.namespace self) /\
  server_field Event.namespace self = Some (DuplexEvent.namespace self).

End PairOps.

(** The descriptor carries a namespace tag list, one entry whose [name] is
    [namespace-] followed by a namespace. *)
Definition emits_namespace_tag (doc : Dict) : Prop :=
  exists ns, dict_get "tags" doc = Some (VList [VDict [("name", VStr ("namespace-" ++ ns))]]).

(** ** A schema layer and a transport to run the scenarios on *)

(** Schemas as the specification's scenarios write them, [Ping{value:int}]:
    a type name, an optional display name and typed fields.  Field aliases
    are left out, so [by_alias] and [allow_population_by_field_name] change
    nothing here. *)
Inductive FieldType : Type := TInt | TStr | TBool | TAny.

Record Field : Type := {
  field_name : string;
  field_type : FieldType;
  field_required : bool
}.

Record Schema : Type := {
  schema_type_name : string;
  schema_display_name : option string;
  schema_fields : list Field;
  schema_by_field_name : bool
}.

Definition has_type (ty : FieldType) (v : Value) : bool :=
  match ty, v with
  | TInt, VInt _ | TStr, VStr _ | TBool, VBool _ | TAny, _ => true
  | _, _ => false
  end.

Definition validate_field (d : Dict) (f : Field) : Result (string * Value) :=
  match dict_get (field_name f) d with
  | Some v =>
      if has_type (field_type f) v then Ok (field_name f, v)
      else Err (ValidationError (field_name f ++ ": wrong type"))
  | None =>
      if field_required f then Err (ValidationError (field_name f ++ ": field required"))
      else Ok (field_name f, VNone)
  end.

Definition schema_validate (s : Schema) (d : Dict) : Result Value :=
  rbind (rmap (validate_field d) (schema_fields s))
    (fun fields => Ok (VInstance (schema_type_name s) fields)).

(** (a) parse and validate from a mapping; keys that are no field are
    ignored. *)
Definition schema_parse_obj (s : Schema) (data : Value) : Result Value :=
  match data with
  | VDict d => schema_validate s d
  | _ => Err (ValidationError (schema_type_name s ++ " expected dict"))
  end.

Definition field_kept (kwargs : DictKwargs) (kv : string * Value) : bool :=
  match include kwargs with
  | Some names => existsb (String.eqb (fst kv)) names
  | None => true
  end
  && match exclude kwargs with
     | Some names => negb (existsb (String.eqb (fst kv)) names)
     | None => true
     end
  && negb (exclude_none kwargs && is_none (snd kv)).

Definition instance_dict (instance : Value) (kwargs : DictKwargs) : Dict :=
  match instance with
  | VInstance _ fields => filter (field_kept kwargs) fields
  | _ => []
  end.

(** (b) render and validate to a mapping.  An instance of the schema is
    serialised; a mapping, or an instance of another schema, is validated
    first; anything else is refused, as [schema_parse_obj] refuses it. *)
Definition schema_render (s : Schema) (data : Value) (kwargs : DictKwargs) : Result Value :=
  rbind
    match data with
    | VInstance cls fields =>
        if String.eqb cls (schema_type_name s) then Ok data else schema_validate s fields
    | VDict d => schema_validate s d
    | _ => Err (ValidationError (schema_type_name s ++ " expected dict"))
    end
    (fun instance => Ok (VDict (instance_dict instance kwargs))).

Definition schema_allow_population_by_field_name (s : Schema) : Schema :=
  {| schema_type_name := schema_type_name s;
     schema_display_name := schema_display_name s;
     schema_fields := schema_fields s;
     schema_by_field_name := true |}.

#[export] Instance simple_schemas : SchemaLayer := {
  Model := Schema;
  model_name_attr := schema_display_name;
  model_type_name := schema_type_name;
  parse_obj := schema_parse_obj;
  model_new := schema_validate;
  model_dict := instance_dict;
  model_render := schema_render;
  allow_population_by_field_name := schema_allow_population_by_field_name
}.

(** A transport whose [emit] gives back [None]. *)
#[export] Instance quiet_transport : Transport := {
  socketio_emit := fun _ => Ok VNone
}.

Definition int_field (name : string) : Field :=
  {| field_name := name; field_type := TInt; field_required := true |}.

Definition str_field (name : string) : Field :=
  {| field_name := name; field_type := TStr; field_required := true |}.

Definition schema (name : string) (fields : list Field) : Schema :=
  {| schema_type_name := name;
     schema_display_name := None;
     schema_fields := fields;
     schema_by_field_name := false |}.

(** [Ping{value:int}], [Pong{value:int}] and [Msg{text:str}] *)
Definition Ping : Schema := schema "Ping" [int_field "value"].
Definition Pong : Schema := schema "Pong" [int_field "value"].
Definition Msg : Schema := schema "Msg" [str_field "text"].

(** [fn(value) -> value + 1] *)
Definition increment : PyFunction :=
  {| fn_name := "increment";
     fn_body := fun args kwargs =>
       match args, kwargs with
       | [], [(key, VInt value)] =>
           if String.eqb key "value" then ret (VInt (value + 1))
           else raise (TypeError "unexpected keyword argument")
       | _, _ => raise (TypeError "increment takes the keyword argument value")
       end |}.




(** [fn(value) -> {"value": value + 1}] *)
Definition increment_answer : PyFunction :=
  {| fn_name := "increment_answer";
     fn_body := fun args kwargs =>
       match args, kwargs with
       | [], [(key, VInt value)] =>
           if String.eqb key "value" then ret (VDict [("value", VInt (value + 1))])
           else raise (TypeError "unexpected keyword argument")
       | _, _ => raise (TypeError "increment_answer takes the keyword argument value")
       end |}.

(** The events of the scenarios. *)
Definition ping_event : ClientEvent.t :=
  ClientEvent.__init__ Ping None None (Some "ping") None None None None None None None.

Definition pong_event : ClientEvent.t :=
  ClientEvent.__init__ Ping (Some Pong) None (Some "ping") None None None None
    (Some true) None None.

Definition msg_event : ServerEvent.t :=
  ServerEvent.__init__ Msg None (Some "message") None None None None None.

Definition ping_server : ServerEvent.t :=
  ServerEvent.__init__ Ping None None None None None None None.

Definition plain_event : Event.t :=
  Event.__init__ Ping None None None None.

Definition chat_event : Event.t :=
  Event.__init__ Ping (Some "chat") None None None.

(** The pair that [DuplexEvent(ping_event, ping_server)] constructs. *)
Definition ping_pair : DuplexEvent.t :=
  {| DuplexEvent.name := None;
     DuplexEvent.namespace := None;
     DuplexEvent.additional_docs := None;
     DuplexEvent.client_event := Bound (Some ping_event);
     DuplexEvent.server_event := Bound (Some ping_server);
     DuplexEvent.description := Bound None;
     DuplexEvent.use_event := Bound false |}.

(** A pair that stores an extra of its own. *)
Definition documented_pair : DuplexEvent.t :=
  {| DuplexEvent.name := None;
     DuplexEvent.namespace := Some "chat";
     DuplexEvent.additional_docs := Some [("deprecated", VBool true)];
     DuplexEvent.client_event := Bound (Some ping_event);
     DuplexEvent.server_event := Bound (Some ping_server);
     DuplexEvent.description := Bound (Some "ping and its echo");
     DuplexEvent.use_event := Bound false |}.

(** ** flask_fullstack/utils/named.py *)

(** [NamedPropertiesMeta.__init__] runs when a class with that metaclass is
    created.  It walks the class body's namespace and writes a [name] on
    every member that is a class derived from [Nameable].  Class objects
    live in a store, since a class can be a member under several keys and
    of several bodies; of a class object the metaclass reads whether it
    derives from [Nameable] and writes its [name] attribute.  The field
    [name] is the attribute as set on the class object itself, [None] when
    it was never set ([Nameable] declares it as [None]). *)
Module Named.

Definition ClassId := nat.

Record ClassObject : Type := {
  nameable : bool;
  name : option string
}.

Definition Classes := ClassId -> ClassObject.

(** A value of the namespace: a class, or anything else. *)
Inductive Member : Type :=
| ClassMember (c : ClassId)
| OtherMember (v : Value).

Definition Namespace := list (string * Member).

Inductive Raised : Type :=
| KeyError (key : string)
| ConcatTypeError.

(** [value.name = new_name] *)
Definition set_name (classes : Classes) (c : ClassId) (new_name : string) : Classes :=
  fun c' =>
    if Nat.eqb c' c
    then {| nameable := nameable (classes c'); name := Some new_name |}
    else classes c'.

Fixpoint namespace_get (key : string) (namespace : Namespace) : option Member :=
  match namespace with
  | [] => None
  | (key', value) :: rest =>
      if String.eqb key key' then Some value else namespace_get key rest
  end.

(** [namespace["__qualname__"] + "." + name]: the key may be missing, and
    only a string can be extended by a string. *)
Definition qualified (namespace : Namespace) (attr : string) : string + Raised :=
  match namespace_get "__qualname__" namespace with
  | None => inr (KeyError "__qualname__")
  | Some (OtherMember (VStr qualname)) => inl (qualname ++ "." ++ attr)%string
  | Some _ => inr ConcatTypeError
  end.

(** The loop over [namespace.items()], from the item it has reached: the
    store when the loop ends, and the exception that ended it, if any. *)
Fixpoint name_members (namespace items : Namespace) (classes : Classes)
  : Classes * option Raised :=
  match items with
  | [] => (classes, None)
  | (attr, ClassMember c) :: rest =>
      if nameable (classes c) then
        match qualified namespace attr with
        | inl new_name => name_members namespace rest (set_name classes c new_name)
        | inr e => (classes, Some e)
        end
      else name_members namespace rest classes
  | (_, OtherMember _) :: rest => name_members namespace rest classes
  end.

(** [type.__init__], called last with the loop's last key in place of the
    class name, does nothing with its arguments. *)
Definition __init__ (classes : Classes) (cls_name : string) (bases : list ClassId)
    (namespace : Namespace) : Classes * option Raised :=
  name_members namespace namespace classes.

(** The last key under which the class [c] is a member. *)
Fixpoint last_binding (c : ClassId) (items : Namespace) : option string :=
  match items with
  | [] => None
  | (attr, value) :: rest =>
      match last_binding c rest with
      | Some later => Some later
      | None =>
          match value with
          | ClassMember c' => if Nat.eqb c' c then Some attr else None
          | OtherMember _ => None
          end
      end
  end.

(** Some member is a class derived from [Nameable]. *)
Fixpoint has_nameable (classes : Classes) (items : Namespace) : bool :=
  match items with
  | [] => false
  | (_, ClassMember c) :: rest => nameable (classes c) || has_nameable classes rest
  | (_, OtherMember _) :: rest => has_nameable classes rest
  end.

End Named.

(** A class body [Events] with two schema classes, one of them bound twice,
    and a class that does not derive from [Nameable]. *)
Definition events_namespace : Named.Namespace :=
  [("__module__", Named.OtherMember (VStr "app"));
   ("__qualname__", Named.OtherMember (VStr "Events"));
   ("Ping", Named.ClassMember 0);
   ("limit", Named.OtherMember (VInt 10));
   ("Pong", Named.ClassMember 1);
   ("Echo", Named.ClassMember 0);
   ("Helper", Named.ClassMember 2)].

Definition events_classes : Named.Classes :=
  fun c =>
    {| Named.nameable := Nat.leb c 1;
       Named.name := if Nat.eqb c 2 then Some "helper" else None |}.

(** A schema with a field called [event], a pair that asks for the event and
    a handler that gives back the arguments it was called with. *)
Definition Evt : Schema := schema "Evt" [str_field "event"].

Definition evt_event : ClientEvent.t :=
  ClientEvent.__init__ Evt None None None None None None None None None None.

Definition echo_kwargs : PyFunction :=
  {| fn_name := "echo"; fn_body := fun _ kwargs => ret (VDict kwargs) |}.

Definition eventful_pair : DuplexEvent.t :=
  {| DuplexEvent.name := None;
     DuplexEvent.namespace := None;
     DuplexEvent.additional_docs := None;
     DuplexEvent.client_event := Bound (Some ping_event);
     DuplexEvent.server_event := Bound (Some ping_server);
     DuplexEvent.description := Bound None;
     DuplexEvent.use_event := Bound true |}.


(** * Properties *)

(** ** The computation monad *)

Lemma bind_lift_Ok {A B} (a : A) (k : A -> M B) : bind (lift (Ok a)) k = k a.
Proof. unfold bind, lift. destruct (k a). reflexivity. Qed.

Lemma bind_lift_Err {A B} (e : Exn) (k : A -> M B) : bind (lift (Err e)) k = ([], Err e).
Proof. reflexivity. Qed.

Lemma bind_ret_r {A} (m : M A) : bind m ret = m.
Proof.
  destruct m as [log [a | e]]; simpl; [rewrite app_nil_r |]; reflexivity.
Qed.



(** ** Binding a handler to a client event *)

Section ClientEventFacts.
Context `{SchemaLayer}.

Lemma parse_bind (ce : ClientEvent.t) (fn : Callable) (data : Value) :
  ClientEvent.parse (ClientEvent.bind ce fn) data = ClientEvent.parse ce data.
Proof. reflexivity. Qed.

Lemma invoke_bind (ce : ClientEvent.t) (fn : Callable) (data : Value) :
  ClientEvent.invoke (ClientEvent.bind ce fn) data =
  ClientEvent.call (ClientEvent.bind ce fn) (ClientEvent._handler ce fn) [data] [].
Proof. reflexivity. Qed.

(** C7: on a client event with no acknowledgment schema, the handler that
    [bind(fn)] installs, invoked with a payload that parses, gives exactly
    what [fn] gives when called with the parsed fields as keyword arguments:
    the same calls and the same value or exception. *)
Theorem C7_bound_handler_without_ack (ce : ClientEvent.t) (fn : Callable)
    (data : Value) (parsed : Dict) :
  ClientEvent.ack_model ce = None ->
  ClientEvent.parse ce data = Ok parsed ->
  ClientEvent.invoke (ClientEvent.bind ce fn) data =
  ClientEvent.call (ClientEvent.bind ce fn) fn [] parsed.
Proof.
  intros Hack Hparse.
  rewrite invoke_bind. unfold ClientEvent._handler. rewrite Hack.
  cbn [ClientEvent.call data_argument].
  rewrite bind_lift_Ok, parse_bind, Hparse, bind_lift_Ok.
  apply bind_ret_r.
Qed.

(** C8: when the schema layer rejects the raw payload, [parse] raises that
    validation error, and the handler installed by [bind(fn)] ends with the
    same error without having called anything: [fn] is never invoked and the
    error is neither caught nor translated. *)
Theorem C8_invalid_payload_propagates (ce : ClientEvent.t) (fn : Callable)
    (data : Value) (e : Exn) :
  parse_obj (Event.model (ClientEvent.event ce)) data = Err e ->
  ClientEvent.parse ce data = Err e /\
  ClientEvent.invoke (ClientEvent.bind ce fn) data = ([], Err e).
Proof.
  intros Hinvalid.
  assert (Hparse : ClientEvent.parse ce data = Err e).
  { unfold ClientEvent.parse. rewrite Hinvalid. reflexivity. }
  split; [exact Hparse |].
  rewrite invoke_bind. unfold ClientEvent._handler.
  destruct (ClientEvent.ack_model ce);
    cbn [ClientEvent.call data_argument];
    rewrite bind_lift_Ok, parse_bind, Hparse; reflexivity.
Qed.

End ClientEventFacts.

(** ** Acknowledgments *)

Section AckFacts.
Context `{SchemaLayer}.








(** ** Attaching an acknowledgment schema after binding *)

(** C1: after [bind(fn)], [attach_ack] stores the new schema and options and
    replaces the handler by a lambda that hands the stored handler, the
    lambda itself by then, to [_ack_response] as if it were a result.
    Invoking it calls nothing, whatever the data: the data is not parsed,
    [fn] is not called, and what is rendered is a function object. *)
Theorem C1_attach_ack_after_bind_drops_handler (ce : ClientEvent.t) (fn : Callable)
    (ack : Model) (include exclude : option (list string))
    (force_wrap exclude_none : option bool) (data : Value) :
  let rebound :=
    ClientEvent.attach_ack (ClientEvent.bind ce fn) (Some ack) include exclude
      force_wrap exclude_none in
  ClientEvent.ack_model rebound = Some ack /\
  ClientEvent._ack_kwargs rebound = make_kwargs include exclude exclude_none /\
  ClientEvent.force_wrap rebound = is_true force_wrap /\
  ClientEvent.handler rebound = Some AckLambda /\
  ClientEvent.invoke rebound data =
  ([], rbind (render_model ack (VFunction "<lambda>")
                (make_kwargs include exclude exclude_none))
         (fun out => Ok (if is_true force_wrap then VDict [("data", out)] else out))).
Proof.
  cbv zeta. repeat split.
Qed.

End AckFacts.

(** ** Pairs *)

Section DuplexEventFacts.
Context `{SchemaLayer} `{Transport}.

Ltac open_pair self :=
  let Hc := fresh "Hclient" in
  let Hs := fresh "Hserver" in
  let Hu := fresh "Hflag" in
  match goal with
  | Hassigned : assigned self |- _ =>
      destruct Hassigned as [[?ce Hc] [[?se Hs] [?flag Hu]]];
      destruct self; simpl in Hc, Hs, Hu; subst
  end.

Lemma attach_name_agrees (self : DuplexEvent.t) (new_name : option string) :
  assigned self ->
  exists self',
    DuplexEvent.attach_name self new_name = Ok self' /\
    DuplexEvent.name self' = new_name /\
    DuplexEvent.namespace self' = DuplexEvent.namespace self /\
    client_field Event.namespace self' = client_field Event.namespace self /\
    server_field Event.namespace self' = server_field Event.namespace self /\
    names_agree self'.
Proof.
  intros Hassigned. open_pair self.
  eexists. split; [reflexivity |].
  unfold names_agree, assigned. cbn. repeat split; eauto.
Qed.

Lemma attach_namespace_agrees (self : DuplexEvent.t) (new_namespace : option string) :
  assigned self ->
  exists self',
    DuplexEvent.attach_namespace self new_namespace = Ok self' /\
    DuplexEvent.namespace self' = new_namespace /\
    DuplexEvent.name self' = DuplexEvent.name self /\
    client_field Event.name self' = client_field Event.name self /\
    server_field Event.name self' = server_field Event.name self /\
    namespaces_agree self'.
Proof.
  intros Hassigned. open_pair self.
  eexists. split; [reflexivity |].
  unfold namespaces_agree, assigned. cbn. repeat split; eauto.
Qed.

Lemma bind_keeps_identity (self : DuplexEvent.t) (function : Callable) :
  assigned self ->
  exists self',
    DuplexEvent.bind self function = Ok self' /\
    assigned self' /\
    DuplexEvent.name self' = DuplexEvent.name self /\
    DuplexEvent.namespace self' = DuplexEvent.namespace self /\
    (forall A (field : Event.t -> A),
        client_field field self' = client_field field self /\
        server_field field self' = server_field field self).
Proof.
  intros Hassigned. open_pair self.
  eexists. split; [reflexivity |].
  unfold assigned. cbn. repeat split; eauto.
Qed.

Lemma run_op_names_agree (self : DuplexEvent.t) (op : PairOp) :
  names_agree self ->
  exists self', run_op self op = Ok self' /\ names_agree self'.
Proof.
  intros (Hassigned & Hc & Hs). destruct op as [new_name | new_namespace | function]; simpl.
  - destruct (attach_name_agrees self new_name Hassigned) as (self' & Hrun & _ & _ & _ & _ & Hagree).
    eauto.
  - destruct (attach_namespace_agrees self new_namespace Hassigned)
      as (self' & Hrun & _ & Hname & Hcn & Hsn & (Hassigned' & _)).
    exists self'. split; [exact Hrun |].
    unfold names_agree. rewrite Hcn, Hsn, Hname. auto.
  - destruct (bind_keeps_identity self function Hassigned)
      as (self' & Hrun & Hassigned' & Hname & _ & Hfields).
    exists self'. split; [exact Hrun |].
    unfold names_agree. destruct (Hfields _ Event.name) as [-> ->]. rewrite Hname. auto.
Qed.

Lemma run_op_namespaces_agree (self : DuplexEvent.t) (op : PairOp) :
  namespaces_agree self ->
  exists self', run_op self op = Ok self' /\ namespaces_agree self'.
Proof.
  intros (Hassigned & Hc & Hs). destruct op as [new_name | new_namespace | function]; simpl.
  - destruct (attach_name_agrees self new_name Hassigned)
      as (self' & Hrun & _ & Hns & Hcn & Hsn & (Hassigned' & _)).
    exists self'. split; [exact Hrun |].
    unfold namespaces_agree. rewrite Hcn, Hsn, Hns. auto.
  - destruct (attach_namespace_agrees self new_namespace Hassigned)
      as (self' & Hrun & _ & _ & _ & _ & Hagree).
    eauto.
  - destruct (bind_keeps_identity self function Hassigned)
      as (self' & Hrun & Hassigned' & _ & Hns & Hfields).
    exists self'. split; [exact Hrun |].
    unfold namespaces_agree. destruct (Hfields _ Event.namespace) as [-> ->]. rewrite Hns. auto.
Qed.

Lemma run_ops_names_agree (ops : list PairOp) (self : DuplexEvent.t) :
  names_agree self ->
  exists self', run_ops ops self = Ok self' /\ names_agree self'.
Proof.
  revert self. induction ops as [| op rest IH]; intros self Hagree; simpl.
  - eauto.
  - destruct (run_op_names_agree self op Hagree) as (mid & -> & Hmid). simpl.
    apply IH. exact Hmid.
Qed.

Lemma run_ops_namespaces_agree (ops : list PairOp) (self : DuplexEvent.t) :
  namespaces_agree self ->
  exists self', run_ops ops self = Ok self' /\ namespaces_agree self'.
Proof.
  revert self. induction ops as [| op rest IH]; intros self Hagree; simpl.
  - eauto.
  - destruct (run_op_namespaces_agree self op Hagree) as (mid & -> & Hmid). simpl.
    apply IH. exact Hmid.
Qed.

(** C4: on a pair whose two children are assigned, [attach_name(X)] leaves
    [X] in the pair's name and in both children's names, and
    [attach_namespace(Y)] leaves [Y] in the three namespaces; whatever
    methods of the pair run afterwards ([attach_name], [attach_namespace],
    [bind], in any number and order), the two children still agree with
    each other, and with the pair, on that field. *)
Theorem C4_pair_setters_propagate (self : DuplexEvent.t) (X Y : option string) :
  assigned self ->
  (exists named,
      DuplexEvent.attach_name self X = Ok named /\
      DuplexEvent.name named = X /\
      client_field Event.name named = Some X /\
      server_field Event.name named = Some X /\
      forall ops, exists later,
          run_ops ops named = Ok later /\
          client_field Event.name later = server_field Event.name later /\
          client_field Event.name later = Some (DuplexEvent.name later))
  /\
  (exists spaced,
      DuplexEvent.attach_namespace self Y = Ok spaced /\
      DuplexEvent.namespace spaced = Y /\
      client_field Event.namespace spaced = Some Y /\
      server_field Event.namespace spaced = Some Y /\
      forall ops, exists later,
          run_ops ops spaced = Ok later /\
          client_field Event.namespace later = server_field Event.namespace later /\
          client_field Event.namespace later = Some (DuplexEvent.namespace later)).
Proof.
  intros Hassigned. split.
  - destruct (attach_name_agrees self X Hassigned)
      as (named & Hrun & Hname & _ & _ & _ & Hagree).
    exists named. pose proof Hagree as (_ & Hc & Hs). rewrite Hname in Hc, Hs.
    repeat split; try assumption.
    intros ops. destruct (run_ops_names_agree ops named Hagree) as (later & Hlater & _ & Hc' & Hs').
    exists later. rewrite Hc', Hs'. auto.
  - destruct (attach_namespace_agrees self Y Hassigned)
      as (spaced & Hrun & Hns & _ & _ & _ & Hagree).
    exists spaced. pose proof Hagree as (_ & Hc & Hs). rewrite Hns in Hc, Hs.
    repeat split; try assumption.
    intros ops. destruct (run_ops_namespaces_agree ops spaced Hagree)
      as (later & Hlater & _ & Hc' & Hs').
    exists later. rewrite Hc', Hs'. auto.
Qed.

End DuplexEventFacts.

(** ** Constructing pairs *)

Section ConstructionFacts.
Context `{SchemaLayer}.

(** C3: constructing a [DuplexEvent] with a name raises [AttributeError],
    whatever the other arguments are: [BaseEvent.__init__] calls
    [attach_name] while the object has no [client_event] yet.  The same
    holds for [similar] called with a name. *)
Theorem C3_duplex_name_at_construction (n : string) :
  (forall client server use_event namespace description additional_docs,
      DuplexEvent.__init__ client server use_event namespace (Some n) description
        additional_docs =
      Err (AttributeError "'DuplexEvent' object has no attribute 'client_event'"))
  /\
  (forall model ack_model use_event description namespace handler include exclude
          exclude_none ack_include ack_exclude ack_exclude_none ack_force_wrap
          additional_docs,
      DuplexEvent.similar model ack_model use_event (Some n) description namespace
        handler include exclude exclude_none ack_include ack_exclude ack_exclude_none
        ack_force_wrap additional_docs =
      Err (AttributeError "'DuplexEvent' object has no attribute 'client_event'")).
Proof. split; reflexivity. Qed.

(** C2: what [similar] builds when no name is given (with a name it raises
    before a pair exists).  The server event is constructed with the name and the
    namespace in each other's place: its name is the namespace that was
    given and its namespace is [None], while the client event and the pair
    have no name and the namespace that was given. *)
Theorem C2_similar_swaps_server_identity (model : Model) (ack_model : option Model)
    (use_event : option bool) (description namespace : option string)
    (handler : option Callable) (include exclude : option (list string))
    (exclude_none : option bool) (ack_include ack_exclude : option (list string))
    (ack_exclude_none ack_force_wrap : option bool) (additional_docs : option Dict) :
  exists pair,
    DuplexEvent.similar model ack_model use_event None description namespace handler
      include exclude exclude_none ack_include ack_exclude ack_exclude_none
      ack_force_wrap additional_docs = Ok pair /\
    DuplexEvent.name pair = None /\
    DuplexEvent.namespace pair = namespace /\
    client_field Event.name pair = Some None /\
    client_field Event.namespace pair = Some namespace /\
    server_field Event.name pair = Some namespace /\
    server_field Event.namespace pair = Some None.
Proof.
  eexists. split; [reflexivity |].
  cbn. unfold Event.__init__. destruct namespace; cbn; repeat split.
Qed.

End ConstructionFacts.

(** ** Emitting *)

Section ServerEventFacts.
Context `{SchemaLayer} `{Transport}.

(** C9: [emit] with no data builds an instance of the payload schema from the
    keyword arguments, renders it with the event's stored options and calls
    the transport once, under the event's name, with the rendered payload,
    the room, the namespace given to [emit], and [include_self] as given
    (so the sender is left out exactly when it is false); the transport's
    result is the result. *)
Theorem C9_emit_dispatches (se : ServerEvent.t) (room namespace : option string)
    (include_self : bool) (kwargs : Dict) (instance rendered : Value) :
  model_new (Event.model (ServerEvent.event se)) kwargs = Ok instance ->
  render_model (Event.model (ServerEvent.event se)) instance (ServerEvent._emit_kwargs se)
    = Ok rendered ->
  let call :=
    {| emit_event := Event.name (ServerEvent.event se);
       emit_data := rendered;
       emit_to := room;
       emit_include_self := include_self;
       emit_namespace := namespace |} in
  ServerEvent.emit se room include_self VNone namespace kwargs =
  ([Emitted call], socketio_emit call).
Proof.
  intros Hnew Hrender call.
  unfold ServerEvent.emit. cbn [is_none].
  rewrite Hnew, bind_lift_Ok, Hrender, bind_lift_Ok.
  reflexivity.
Qed.

End ServerEventFacts.

(** ** Documentation fragments *)

Lemma dict_get_set_other (k k' : string) (v : Value) (d : Dict) :
  k <> k' -> dict_get k (dict_set k' v d) = dict_get k d.
Proof.
  intros Hne. induction d as [| [k0 v0] rest IH]; simpl.
  - destruct (String.eqb_spec k k'); [contradiction | reflexivity].
  - destruct (String.eqb_spec k' k0) as [-> | Hk0]; simpl.
    + destruct (String.eqb_spec k k0); [contradiction | reflexivity].
    + rewrite IH. reflexivity.
Qed.

Lemma dict_has_cons (k k' : string) (v : Value) (rest : Dict) :
  dict_has k ((k', v) :: rest) = false -> k <> k' /\ dict_has k rest = false.
Proof.
  unfold dict_has. simpl. destruct (String.eqb_spec k k'); [discriminate | auto].
Qed.

Lemma dict_has_app (k : string) (a b : Dict) :
  dict_has k a = false -> dict_has k b = false -> dict_has k (a ++ b) = false.
Proof.
  intros Ha Hb. induction a as [| [k' v] rest IH]; simpl; [exact Hb |].
  apply dict_has_cons in Ha as [Hne Hrest].
  unfold dict_has in *. simpl.
  destruct (String.eqb_spec k k'); [contradiction | auto].
Qed.

Lemma dict_get_update_absent (k : string) (other d : Dict) :
  dict_has k other = false -> dict_get k (dict_update d other) = dict_get k d.
Proof.
  unfold dict_update. revert d.
  induction other as [| [k' v] rest IH]; intros d Habsent; simpl; [reflexivity |].
  apply dict_has_cons in Habsent as [Hne Hrest].
  rewrite IH by exact Hrest. apply dict_get_set_other. exact Hne.
Qed.

Lemma dict_get_filter (p : string * Value -> bool) (k : string) (v : Value) (d : Dict) :
  dict_get k d = Some v -> p (k, v) = true -> dict_get k (filter p d) = Some v.
Proof.
  intros Hget Hkeep. induction d as [| [k' v'] rest IH]; simpl in *; [discriminate |].
  destruct (String.eqb_spec k k') as [<- | Hne].
  - injection Hget as ->. rewrite Hkeep. simpl. rewrite String.eqb_refl. reflexivity.
  - destruct (p (k', v')); simpl; [| auto].
    destruct (String.eqb_spec k k'); [contradiction | auto].
Qed.

Lemma remove_none_no_None (data kwargs : Dict) (k : string) (v : Value) :
  In (k, v) (remove_none data kwargs) -> v <> VNone.
Proof.
  unfold remove_none. intros Hin. apply filter_In in Hin as [_ Hkeep].
  intros ->. discriminate.
Qed.

Lemma merge_kwargs_Ok (a b kwargs : Dict) :
  merge_kwargs a b = Ok kwargs -> kwargs = a ++ b.
Proof.
  unfold merge_kwargs. destruct (first_shared_key a b); [discriminate |].
  intros Heq. injection Heq as <-. reflexivity.
Qed.

Section DocFacts.
Context `{SchemaLayer}.

(** Where the descriptor's [tags] come from when the extras leave that key
    alone. *)
Lemma create_doc_tags (e : Event.t) (ns : option string) (extra : option Dict) (doc : Dict) :
  Event.create_doc e ns extra = Ok doc ->
  dict_has "tags" (or_empty (Event.additional_docs e)) = false ->
  dict_has "tags" (or_empty extra) = false ->
  dict_get "tags" doc =
  Some (VList match ns, Event.namespace e with
              | None, None => [VDict [("name", VStr "namespace-None")]]
              | _, _ => []
              end).
Proof.
  unfold Event.create_doc. intros Hdoc Hstored Hextra.
  destruct (merge_kwargs _ _) as [kwargs | err] eqn:Hmerge; [| discriminate].
  apply merge_kwargs_Ok in Hmerge. simpl in Hdoc. injection Hdoc as <-.
  unfold remove_none. apply dict_get_filter.
  - rewrite dict_get_update_absent by (subst kwargs; apply dict_has_app; assumption).
    destruct ns as [given |]; [reflexivity |].
    destruct (Event.namespace e); reflexivity.
  - reflexivity.
Qed.

(** C5: what [create_doc] does about the namespace tag when the extras leave
    [tags] alone.  An event that stores a namespace and is documented with
    no namespace argument carries no namespace tag; and the only tag that
    [create_doc] ever emits is the one named [namespace-None], on an event
    that stores no namespace and is given none. *)
Theorem C5_namespace_tag_names_no_namespace (e : Event.t) (ns : option string)
    (extra : option Dict) (doc : Dict) :
  Event.create_doc e ns extra = Ok doc ->
  dict_has "tags" (or_empty (Event.additional_docs e)) = false ->
  dict_has "tags" (or_empty extra) = false ->
  (forall stored, ns = None -> Event.namespace e = Some stored ->
                  ~ emits_namespace_tag doc)
  /\
  (emits_namespace_tag doc ->
   ns = None /\
   Event.namespace e = None /\
   dict_get "tags" doc = Some (VList [VDict [("name", VStr "namespace-None")]])).
Proof.
  intros Hdoc Hstored Hextra.
  pose proof (create_doc_tags e ns extra doc Hdoc Hstored Hextra) as Htags.
  unfold emits_namespace_tag. split.
  - intros stored -> Hnamed [tag Htag]. rewrite Hnamed, Htag in Htags. discriminate.
  - intros [tag Htag]. rewrite Htag in Htags.
    destruct ns; [discriminate |]. destruct (Event.namespace e); [discriminate |].
    repeat split. rewrite Htag. exact Htags.
Qed.

(** [create_doc] returns a descriptor unless the stored extras and the extras
    of the call share a key. *)
Lemma create_doc_returns (e : Event.t) (ns : option string) (extra : option Dict) :
  first_shared_key (or_empty (Event.additional_docs e)) (or_empty extra) = None ->
  exists doc, Event.create_doc e ns extra = Ok doc.
Proof.
  intros Hdisjoint. unfold Event.create_doc, merge_kwargs. rewrite Hdisjoint.
  simpl. eauto.
Qed.

(** The client and server fragments wrap the same descriptor. *)
Lemma publish_fragment (ce : ClientEvent.t) (ns : option string) (extra : option Dict)
    (fragment : Dict) :
  ClientEvent.create_doc ce ns extra = Ok fragment ->
  exists doc,
    Event.create_doc (ClientEvent.event ce) ns extra = Ok doc /\
    fragment = [("publish", VDict doc)].
Proof.
  unfold ClientEvent.create_doc. destruct (Event.create_doc _ _ _) as [doc | err]; simpl.
  - intros Heq. injection Heq as <-. eauto.
  - discriminate.
Qed.

Lemma subscribe_fragment (se : ServerEvent.t) (ns : option string) (extra : option Dict)
    (fragment : Dict) :
  ServerEvent.create_doc se ns extra = Ok fragment ->
  exists doc,
    Event.create_doc (ServerEvent.event se) ns extra = Ok doc /\
    fragment = [("subscribe", VDict doc)].
Proof.
  unfold ServerEvent.create_doc. destruct (Event.create_doc _ _ _) as [doc | err]; simpl.
  - intros Heq. injection Heq as <-. eauto.
  - discriminate.
Qed.

(** C10: [DuplexEvent.create_doc] called without a dictionary raises
    [AttributeError]; called with one, it first merges the pair's stored
    extras into the caller's dictionary, which keeps them whatever happens
    next, and hands the merged dictionary to both children.  So a combined
    document only comes out of a call that was given a dictionary, and that
    dictionary may come back changed. *)
Theorem C10_duplex_create_doc_updates_argument :
  (forall (self : DuplexEvent.t) ns,
      DuplexEvent.create_doc self ns None =
      (None, Err (AttributeError "'NoneType' object has no attribute 'update'")))
  /\
  (forall (self : DuplexEvent.t) ns docs,
      fst (DuplexEvent.create_doc self ns (Some docs)) =
      Some (dict_update docs (or_empty (DuplexEvent.additional_docs self))))
  /\
  (forall (self : DuplexEvent.t) ns docs ce se descr,
      DuplexEvent.client_event self = Bound (Some ce) ->
      DuplexEvent.server_event self = Bound (Some se) ->
      DuplexEvent.description self = Bound descr ->
      let merged := dict_update docs (or_empty (DuplexEvent.additional_docs self)) in
      snd (DuplexEvent.create_doc self ns (Some docs)) =
      rbind (ClientEvent.create_doc ce ns (Some merged)) (fun publish =>
      rbind (ServerEvent.create_doc se ns (Some merged)) (fun subscribe =>
      Ok match descr with
         | Some text => dict_set "description" (VStr text) (dict_update publish subscribe)
         | None => dict_update publish subscribe
         end)))
  /\
  (forall (self : DuplexEvent.t) ns extra doc,
      snd (DuplexEvent.create_doc self ns extra) = Ok doc -> extra <> None)
  /\
  (exists (self : DuplexEvent.t) docs,
      fst (DuplexEvent.create_doc self None (Some docs)) <> Some docs).
Proof.
  split; [reflexivity |].
  split; [reflexivity |].
  split.
  { intros self ns docs ce se descr Hc Hs Hd merged.
    unfold DuplexEvent.create_doc. cbn [snd]. rewrite Hc, Hs, Hd. reflexivity. }
  split.
  { intros self ns [docs |] doc Hdoc; [discriminate | discriminate]. }
  exists {| DuplexEvent.name := None;
            DuplexEvent.namespace := None;
            DuplexEvent.additional_docs := Some [("deprecated", VBool true)];
            DuplexEvent.client_event := Bound None;
            DuplexEvent.server_event := Bound None;
            DuplexEvent.description := Bound None;
            DuplexEvent.use_event := Bound false |}, [].
  discriminate.
Qed.

End DocFacts.

(** * The scenarios *)

Example ping_pair_constructed :
  DuplexEvent.__init__ (Some ping_event) (Some ping_server) None None None None None
  = Ok ping_pair.
Proof. reflexivity. Qed.

(** [Ping{value:int}], no acknowledgment, [fn(value) -> value + 1]: the
    payload [{"value": 1}] yields [2]. *)
Lemma ping_returns_two :
  ClientEvent.invoke (ClientEvent.bind ping_event (UserFunction increment))
    (VDict [("value", VInt 1)]) =
  ([Called "increment" [] [("value", VInt 1)]], Ok (VInt 2)).
Proof.
  exact (C7_bound_handler_without_ack ping_event (UserFunction increment)
           (VDict [("value", VInt 1)]) [("value", VInt 1)] eq_refl eq_refl).
Defined.

(** A payload without the required field: nothing is called. *)
Lemma ping_rejects_missing_value :
  ClientEvent.parse ping_event (VDict []) = Err (ValidationError "value: field required") /\
  ClientEvent.invoke (ClientEvent.bind ping_event (UserFunction increment)) (VDict []) =
  ([], Err (ValidationError "value: field required")).
Proof.
  exact (C8_invalid_payload_propagates ping_event (UserFunction increment) (VDict [])
           (ValidationError "value: field required") eq_refl).
Defined.

Example ping_rejects_mistyped_value :
  ClientEvent.invoke (ClientEvent.bind pong_event (UserFunction increment))
    (VDict [("value", VStr "one")]) =
  ([], Err (ValidationError "value: wrong type")).
Proof. reflexivity. Qed.



(** Attaching the acknowledgment schema after binding: the handler of the
    application is not called and a function object is what gets rendered.
    Attaching it before binding renders what the handler returns. *)
Example attach_ack_after_bind_on_ping :
  ClientEvent.invoke
    (ClientEvent.attach_ack (ClientEvent.bind ping_event (UserFunction increment))
       (Some Pong) None None None None)
    (VDict [("value", VInt 1)]) =
  ([], Err (ValidationError "Pong expected dict")).
Proof. reflexivity. Qed.

Example attach_ack_before_bind_on_ping :
  ClientEvent.invoke
    (ClientEvent.bind (ClientEvent.attach_ack ping_event (Some Pong) None None None None)
       (UserFunction increment_answer))
    (VDict [("value", VInt 1)]) =
  ([Called "increment_answer" [] [("value", VInt 1)]], Ok (VDict [("value", VInt 2)])).
Proof. reflexivity. Qed.

(** [Msg{text:str}]: [emit] to the room [r1] with [text="hi"]. *)
Lemma msg_emitted_to_room :
  ServerEvent.emit msg_event (Some "r1") true VNone None [("text", VStr "hi")] =
  ([Emitted {| emit_event := Some "message";
               emit_data := VDict [("text", VStr "hi")];
               emit_to := Some "r1";
               emit_include_self := true;
               emit_namespace := None |}],
   Ok VNone).
Proof.
  exact (C9_emit_dispatches msg_event (Some "r1") None true [("text", VStr "hi")]
           (VInstance "Msg" [("text", VStr "hi")]) (VDict [("text", VStr "hi")])
           eq_refl eq_refl).
Defined.

(** A pair built by [similar] for the namespace [chat]: the server event is
    named [chat] and has no namespace. *)
Example similar_in_chat :
  exists pair,
    DuplexEvent.similar Ping None None None None (Some "chat") None None None (Some true)
      None None (Some true) (Some false) None = Ok pair /\
    client_field Event.name pair = Some None /\
    client_field Event.namespace pair = Some (Some "chat") /\
    server_field Event.name pair = Some (Some "chat") /\
    server_field Event.namespace pair = Some None.
Proof. eexists. repeat split. Qed.

(** Naming the pair, then running more of its methods. *)
Lemma ping_pair_named :
  assigned ping_pair /\
  exists named,
    DuplexEvent.attach_name ping_pair (Some "ping") = Ok named /\
    DuplexEvent.name named = Some "ping" /\
    client_field Event.name named = Some (Some "ping") /\
    server_field Event.name named = Some (Some "ping").
Proof.
  assert (Hassigned : assigned ping_pair).
  { unfold assigned, ping_pair. simpl. repeat split; eexists; reflexivity. }
  split; [exact Hassigned |].
  destruct (C4_pair_setters_propagate ping_pair (Some "ping") (Some "chat") Hassigned)
    as [(named & Hrun & Hname & Hclient & Hserver & _) _].
  exists named. auto.
Defined.

(** The event that stores the namespace [chat], documented with no namespace
    argument: no tag names [chat]. *)
Lemma chat_event_documented_without_tag :
  exists doc,
    Event.create_doc chat_event None None = Ok doc /\
    ~ emits_namespace_tag doc.
Proof.
  eexists. split; [reflexivity |].
  exact (proj1
           (C5_namespace_tag_names_no_namespace chat_event None None _ eq_refl
              eq_refl eq_refl)
           "chat" eq_refl eq_refl).
Defined.

(** An event with no namespace, documented with none given: the tag is
    named after [None]. *)
Example plain_event_documented :
  Event.create_doc plain_event None None =
  Ok [("tags", VList [VDict [("name", VStr "namespace-None")]]);
      ("message", VDict [("$ref", VStr "#/components/messages/Ping")])].
Proof. reflexivity. Qed.

(** An event that stores the namespace [chat], documented with no namespace
    argument: no tag, although none was given at the call. *)
Lemma chat_event_has_no_tag :
  ~ (forall (e : Event.t) (ns : option string) (extra : option Dict) (doc : Dict),
        Event.create_doc e ns extra = Ok doc ->
        (emits_namespace_tag doc <-> ns = None)).
Proof.
  intros Hclaim.
  destruct (Hclaim chat_event None None _ eq_refl) as [_ Hback].
  destruct (Hback eq_refl) as [tag Htag].
  discriminate Htag.
Qed.

Example chat_event_documented :
  Event.create_doc chat_event None None =
  Ok [("tags", VList []);
      ("message", VDict [("$ref", VStr "#/components/messages/Ping")])].
Proof. reflexivity. Qed.

(** Extras that share a key are refused at the call. *)
Example shared_extra_is_refused :
  Event.create_doc (Event.__init__ Ping None None None (Some [("summary", VStr "stored")]))
    None (Some [("summary", VStr "given")]) =
  Err (TypeError "got multiple values for keyword argument summary").
Proof. reflexivity. Qed.

(** A pair documented with the caller's dictionary: the dictionary comes back
    with the pair's extra in it, and both fragments carry the merged
    extras. *)
Lemma documented_pair_updates_docs :
  DuplexEvent.create_doc documented_pair (Some "chat") (Some [("summary", VStr "ping")]) =
  (Some [("summary", VStr "ping"); ("deprecated", VBool true)],
   Ok [("publish",
        VDict [("tags", VList []);
               ("message", VDict [("$ref", VStr "#/components/messages/Ping")]);
               ("summary", VStr "ping");
               ("deprecated", VBool true)]);
       ("subscribe",
        VDict [("tags", VList []);
               ("message", VDict [("$ref", VStr "#/components/messages/Ping")]);
               ("summary", VStr "ping");
               ("deprecated", VBool true)]);
       ("description", VStr "ping and its echo")]).
Proof.
  destruct C10_duplex_create_doc_updates_argument as (_ & Hcaller & Hchildren & _).
  apply injective_projections.
  - apply Hcaller.
  - apply (Hchildren documented_pair (Some "chat") [("summary", VStr "ping")]
             ping_event ping_server (Some "ping and its echo") eq_refl eq_refl eq_refl).
Defined.

Example pair_without_docs_raises :
  DuplexEvent.create_doc documented_pair None None =
  (None, Err (AttributeError "'NoneType' object has no attribute 'update'")).
Proof. reflexivity. Qed.

(** * Naming the members of a class body *)

Lemma set_name_nameable (classes : Named.Classes) (c c' : Named.ClassId) (n : string) :
  Named.nameable (Named.set_name classes c n c') = Named.nameable (classes c').
Proof.
  unfold Named.set_name. destruct (Nat.eqb c' c); reflexivity.
Qed.

Lemma name_members_named (namespace items : Named.Namespace) (qualname : string)
    (classes : Named.Classes) :
  Named.namespace_get "__qualname__" namespace
    = Some (Named.OtherMember (VStr qualname)) ->
  exists named,
    Named.name_members namespace items classes = (named, None) /\
    forall c,
      Named.nameable (named c) = Named.nameable (classes c) /\
      Named.name (named c) =
      match Named.last_binding c items with
      | Some attr =>
          if Named.nameable (classes c)
          then Some (qualname ++ "." ++ attr)%string
          else Named.name (classes c)
      | None => Named.name (classes c)
      end.
Proof.
  intros Hqual. revert classes.
  induction items as [| [attr value] rest IH]; intros classes; simpl.
  - exists classes. split; [reflexivity |]. intros c. split; reflexivity.
  - destruct value as [c0 | v].
    + destruct (Named.nameable (classes c0)) eqn:Hc0.
      * unfold Named.qualified. rewrite Hqual.
        destruct (IH (Named.set_name classes c0 (qualname ++ "." ++ attr)%string))
          as (named & Hrun & Hnamed).
        exists named. split; [exact Hrun |].
        intros c. destruct (Hnamed c) as [Hflag Hname].
        rewrite set_name_nameable in Hflag, Hname.
        split; [exact Hflag |]. rewrite Hname.
        unfold Named.set_name.
        destruct (Nat.eqb_spec c c0) as [-> | Hne].
        -- rewrite Nat.eqb_refl, Hc0.
           destruct (Named.last_binding c0 rest); reflexivity.
        -- destruct (Nat.eqb_spec c0 c) as [Heq | _]; [congruence |].
           destruct (Named.last_binding c rest); reflexivity.
      * destruct (IH classes) as (named & Hrun & Hnamed).
        exists named. split; [exact Hrun |].
        intros c. destruct (Hnamed c) as [Hflag Hname].
        split; [exact Hflag |]. rewrite Hname.
        destruct (Named.last_binding c rest) as [later |]; [reflexivity |].
        destruct (Nat.eqb_spec c0 c) as [<- | _]; [rewrite Hc0 |]; reflexivity.
    + destruct (IH classes) as (named & Hrun & Hnamed).
      exists named. split; [exact Hrun |].
      intros c. destruct (Hnamed c) as [Hflag Hname].
      split; [exact Hflag |]. rewrite Hname.
      destruct (Named.last_binding c rest); reflexivity.
Qed.

(** X1: when the class body has a string [__qualname__], the metaclass ends
    without an exception; every class that derives from [Nameable] and is a
    member of the body is named [<qualname>.<key>] after the last key it is
    bound to, and every other class object is left as it was. *)
Theorem named_members_take_last_key (classes : Named.Classes) (cls_name : string)
    (bases : list Named.ClassId) (namespace : Named.Namespace) (qualname : string) :
  Named.namespace_get "__qualname__" namespace
    = Some (Named.OtherMember (VStr qualname)) ->
  exists named,
    Named.__init__ classes cls_name bases namespace = (named, None) /\
    forall c,
      Named.nameable (named c) = Named.nameable (classes c) /\
      Named.name (named c) =
      match Named.last_binding c namespace with
      | Some attr =>
          if Named.nameable (classes c)
          then Some (qualname ++ "." ++ attr)%string
          else Named.name (classes c)
      | None => Named.name (classes c)
      end.
Proof.
  intros Hqual. unfold Named.__init__.
  apply name_members_named. exact Hqual.
Qed.

Lemma events_classes_named :
  exists named,
    Named.__init__ events_classes "Events" [] events_namespace = (named, None) /\
    Named.name (named 0) = Some "Events.Echo" /\
    Named.name (named 1) = Some "Events.Pong" /\
    Named.name (named 2) = Some "helper" /\
    Named.name (named 3) = None.
Proof.
  destruct (named_members_take_last_key events_classes "Events" [] events_namespace
              "Events" eq_refl) as (named & Hrun & Hnamed).
  exists named. split; [exact Hrun |].
  repeat split; apply Hnamed.
Defined.

(** X2: when [__qualname__] is missing from the namespace, the metaclass
    raises [KeyError] if some member is a class that derives from
    [Nameable] and ends normally otherwise; either way no class has been
    renamed. *)
Theorem named_without_qualname (classes : Named.Classes) (cls_name : string)
    (bases : list Named.ClassId) (namespace : Named.Namespace) :
  Named.namespace_get "__qualname__" namespace = None ->
  Named.__init__ classes cls_name bases namespace =
  (classes,
   if Named.has_nameable classes namespace
   then Some (Named.KeyError "__qualname__")
   else None).
Proof.
  intros Hmissing. unfold Named.__init__.
  generalize namespace at 2 3 as items.
  induction items as [| [attr [c | v]] rest IH]; simpl; try assumption; [reflexivity |].
  destruct (Named.nameable (classes c)); simpl; [| exact IH].
  unfold Named.qualified. rewrite Hmissing. reflexivity.
Qed.

Lemma unqualified_namespace_raises :
  Named.__init__ events_classes "Events" [] [("Ping", Named.ClassMember 0)] =
  (events_classes, Some (Named.KeyError "__qualname__")).
Proof.
  exact (named_without_qualname events_classes "Events" [] [("Ping", Named.ClassMember 0)]
           eq_refl).
Defined.

(** X3: running the metaclass a second time over the same class body changes
    nothing: every class has the name the first run gave it. *)
Theorem named_twice (classes : Named.Classes) (cls_name : string)
    (bases : list Named.ClassId) (namespace : Named.Namespace) (qualname : string) :
  Named.namespace_get "__qualname__" namespace
    = Some (Named.OtherMember (VStr qualname)) ->
  exists once twice,
    Named.__init__ classes cls_name bases namespace = (once, None) /\
    Named.__init__ once cls_name bases namespace = (twice, None) /\
    forall c,
      Named.nameable (twice c) = Named.nameable (once c) /\
      Named.name (twice c) = Named.name (once c).
Proof.
  intros Hqual. unfold Named.__init__.
  destruct (name_members_named namespace namespace qualname classes Hqual)
    as (once & Hfirst & Honce).
  destruct (name_members_named namespace namespace qualname once Hqual)
    as (twice & Hsecond & Htwice).
  exists once, twice. repeat split; try assumption.
  - apply Htwice.
  - destruct (Htwice c) as [_ ->]. destruct (Honce c) as [-> ->].
    destruct (Named.last_binding c namespace); [| reflexivity].
    destruct (Named.nameable (classes c)); reflexivity.
Qed.

Lemma events_classes_named_twice :
  exists once twice,
    Named.__init__ events_classes "Events" [] events_namespace = (once, None) /\
    Named.__init__ once "Events" [] events_namespace = (twice, None) /\
    Named.name (twice 0) = Named.name (once 0).
Proof.
  destruct (named_twice events_classes "Events" [] events_namespace "Events" eq_refl)
    as (once & twice & Hfirst & Hsecond & Hsame).
  exists once, twice. repeat split; try assumption. apply Hsame.
Defined.

(** * Handlers, once more *)

Section MoreClientFacts.
Context `{SchemaLayer}.

(** X4: a second [attach_ack] leaves the event exactly as one call with the
    last arguments does, whether or not a handler was bound: the lambdas do
    not pile up. *)
Theorem attach_ack_last_call_wins (ce : ClientEvent.t)
    (ack1 ack2 : option Model) (include1 exclude1 include2 exclude2 : option (list string))
    (force_wrap1 exclude_none1 force_wrap2 exclude_none2 : option bool) :
  ClientEvent.attach_ack
    (ClientEvent.attach_ack ce ack1 include1 exclude1 force_wrap1 exclude_none1)
    ack2 include2 exclude2 force_wrap2 exclude_none2 =
  ClientEvent.attach_ack ce ack2 include2 exclude2 force_wrap2 exclude_none2.
Proof.
  destruct ce as [ev kwargs [h |] ack wrap]; reflexivity.
Qed.


(** X6: a handler given to the constructor is stored as it is: invoked with
    incoming data, it is called with that data as its one positional
    argument; nothing is parsed and nothing is rendered, whatever the schemas
    are. *)
Theorem constructor_handler_is_not_wrapped (model : Model) (ack_model : option Model)
    (namespace name description : option string) (f : PyFunction)
    (include exclude : option (list string)) (force_wrap exclude_none : option bool)
    (additional_docs : option Dict) (data : Value) :
  ClientEvent.invoke
    (ClientEvent.__init__ model ack_model namespace name description
       (Some (UserFunction f)) include exclude force_wrap exclude_none additional_docs)
    data =
  call_function f [data] [].
Proof. reflexivity. Qed.

Lemma first_shared_event (o : Value) (parsed : Dict) :
  first_shared_key [("event", o)] parsed =
  if dict_has "event" parsed then Some "event" else None.
Proof.
  induction parsed as [| [k v] rest IH]; [reflexivity |].
  cbn [first_shared_key]. rewrite IH.
  unfold dict_has. cbn [dict_get].
  rewrite (String.eqb_sym "event" k).
  destruct (String.eqb_spec k "event") as [-> | Hne]; reflexivity.
Qed.

Lemma merge_event_kwarg (parsed : Dict) :
  merge_kwargs [("event", VObject "DuplexEvent")] parsed =
  if dict_has "event" parsed
  then Err (TypeError "got multiple values for keyword argument event")
  else Ok (("event", VObject "DuplexEvent") :: parsed).
Proof.
  unfold merge_kwargs. rewrite first_shared_event.
  destruct (dict_has "event" parsed); reflexivity.
Qed.

(** X7: on a pair with [use_event], [bind(fn)] installs in the client event a
    handler that calls [fn] with the parsed fields and one more keyword
    argument, [event], given first; what [fn] returns is returned as it is
    when the client event has no acknowledgment schema and rendered by
    [_ack_response] when it has one. *)
Theorem duplex_bind_passes_event (pair : DuplexEvent.t) (ce : ClientEvent.t)
    (fn : Callable) (data : Value) (parsed : Dict) :
  DuplexEvent.client_event pair = Bound (Some ce) ->
  DuplexEvent.use_event pair = Bound true ->
  ClientEvent.parse ce data = Ok parsed ->
  dict_has "event" parsed = false ->
  exists pair' ce',
    DuplexEvent.bind pair fn = Ok pair' /\
    DuplexEvent.client_event pair' = Bound (Some ce') /\
    ClientEvent.invoke ce' data =
    (result <- ClientEvent.call ce' fn [] (("event", VObject "DuplexEvent") :: parsed) ;;
     match ClientEvent.ack_model ce with
     | None => ret result
     | Some _ => lift (ClientEvent._ack_response ce result)
     end)%py.
Proof.
  intros Hclient Hflag Hparse Hfree.
  unfold DuplexEvent.bind. rewrite Hflag, Hclient. simpl.
  eexists. eexists. split; [reflexivity |]. split; [reflexivity |].
  rewrite invoke_bind. unfold ClientEvent._handler.
  destruct (ClientEvent.ack_model ce) eqn:Hack;
    cbn [ClientEvent.call data_argument];
    rewrite bind_lift_Ok, parse_bind, Hparse, bind_lift_Ok;
    rewrite merge_event_kwarg, Hfree, bind_lift_Ok;
    reflexivity.
Qed.

(** X8: on a pair with [use_event], a payload whose parsed fields include one
    called [event] makes the bound handler raise [TypeError]; [fn] is not
    called. *)
Theorem duplex_bind_event_field_clashes (pair : DuplexEvent.t) (ce : ClientEvent.t)
    (fn : Callable) (data : Value) (parsed : Dict) :
  DuplexEvent.client_event pair = Bound (Some ce) ->
  DuplexEvent.use_event pair = Bound true ->
  ClientEvent.parse ce data = Ok parsed ->
  dict_has "event" parsed = true ->
  exists pair' ce',
    DuplexEvent.bind pair fn = Ok pair' /\
    DuplexEvent.client_event pair' = Bound (Some ce') /\
    ClientEvent.invoke ce' data =
    ([], Err (TypeError "got multiple values for keyword argument event")).
Proof.
  intros Hclient Hflag Hparse Hclash.
  unfold DuplexEvent.bind. rewrite Hflag, Hclient. simpl.
  eexists. eexists. split; [reflexivity |]. split; [reflexivity |].
  rewrite invoke_bind. unfold ClientEvent._handler.
  destruct (ClientEvent.ack_model ce);
    cbn [ClientEvent.call data_argument];
    rewrite bind_lift_Ok, parse_bind, Hparse, bind_lift_Ok;
    rewrite merge_event_kwarg, Hclash; reflexivity.
Qed.

End MoreClientFacts.


Lemma eventful_pair_passes_event :
  exists pair' ce',
    DuplexEvent.bind eventful_pair (UserFunction echo_kwargs) = Ok pair' /\
    DuplexEvent.client_event pair' = Bound (Some ce') /\
    ClientEvent.invoke ce' (VDict [("value", VInt 1)]) =
    ([Called "echo" [] [("event", VObject "DuplexEvent"); ("value", VInt 1)]],
     Ok (VDict [("event", VObject "DuplexEvent"); ("value", VInt 1)])).
Proof.
  exact (duplex_bind_passes_event eventful_pair ping_event (UserFunction echo_kwargs)
           (VDict [("value", VInt 1)]) [("value", VInt 1)]
           eq_refl eq_refl eq_refl eq_refl).
Defined.

Lemma event_field_clashes_with_pair :
  let pair :=
    DuplexEvent.assign_fields eventful_pair (Some evt_event) (Some ping_server) None true in
  exists pair' ce',
    DuplexEvent.bind pair (UserFunction echo_kwargs) = Ok pair' /\
    DuplexEvent.client_event pair' = Bound (Some ce') /\
    ClientEvent.invoke ce' (VDict [("event", VStr "joined")]) =
    ([], Err (TypeError "got multiple values for keyword argument event")).
Proof.
  exact (duplex_bind_event_field_clashes
           (DuplexEvent.assign_fields eventful_pair (Some evt_event) (Some ping_server)
              None true)
           evt_event (UserFunction echo_kwargs) (VDict [("event", VStr "joined")])
           [("event", VStr "joined")] eq_refl eq_refl eq_refl eq_refl).
Defined.

(** * Emitting, once more *)

Section MoreServerFacts.
Context `{SchemaLayer} `{Transport}.

(** X9: [emit] sends nothing when the payload cannot be built or cannot be
    rendered: the schema layer's error ends the call before the transport
    is reached. *)
Theorem emit_failure_dispatches_nothing (se : ServerEvent.t)
    (room namespace : option string) (include_self : bool) (kwargs : Dict) (e : Exn) :
  (model_new (Event.model (ServerEvent.event se)) kwargs = Err e ->
   ServerEvent.emit se room include_self VNone namespace kwargs = ([], Err e))
  /\
  (forall data instance,
      (if is_none data
       then model_new (Event.model (ServerEvent.event se)) kwargs
       else Ok data) = Ok instance ->
      render_model (Event.model (ServerEvent.event se)) instance
        (ServerEvent._emit_kwargs se) = Err e ->
      ServerEvent.emit se room include_self data namespace kwargs = ([], Err e)).
Proof.
  split.
  - intros Hnew. unfold ServerEvent.emit. cbn [is_none]. rewrite Hnew. reflexivity.
  - intros data instance Hstaged Hrender. unfold ServerEvent.emit.
    rewrite Hstaged, bind_lift_Ok, Hrender. reflexivity.
Qed.

(** X10: when [emit] is given data, the keyword arguments are not looked at
    and no instance is constructed from them: the data itself is rendered
    and dispatched. *)
Theorem emit_with_data_ignores_kwargs (se : ServerEvent.t)
    (room namespace : option string) (include_self : bool) (data rendered : Value)
    (kwargs : Dict) :
  is_none data = false ->
  render_model (Event.model (ServerEvent.event se)) data (ServerEvent._emit_kwargs se)
    = Ok rendered ->
  let call :=
    {| emit_event := Event.name (ServerEvent.event se);
       emit_data := rendered;
       emit_to := room;
       emit_include_self := include_self;
       emit_namespace := namespace |} in
  ServerEvent.emit se room include_self data namespace kwargs =
  ([Emitted call], socketio_emit call).
Proof.
  intros Hdata Hrender call. unfold ServerEvent.emit.
  rewrite Hdata, bind_lift_Ok, Hrender, bind_lift_Ok. reflexivity.
Qed.

(** X11: after [attach_name(X)] on a pair, the pair's [emit] dispatches under
    the name [X], with the server event's schema and options. *)
Theorem pair_emits_under_attached_name (pair named : DuplexEvent.t)
    (ce : ClientEvent.t) (se : ServerEvent.t) (X room namespace : option string)
    (include_self : bool) (kwargs : Dict) (instance rendered : Value) :
  DuplexEvent.client_event pair = Bound (Some ce) ->
  DuplexEvent.server_event pair = Bound (Some se) ->
  DuplexEvent.attach_name pair X = Ok named ->
  model_new (Event.model (ServerEvent.event se)) kwargs = Ok instance ->
  render_model (Event.model (ServerEvent.event se)) instance (ServerEvent._emit_kwargs se)
    = Ok rendered ->
  let call :=
    {| emit_event := X;
       emit_data := rendered;
       emit_to := room;
       emit_include_self := include_self;
       emit_namespace := namespace |} in
  DuplexEvent.emit named room include_self VNone namespace kwargs =
  ([Emitted call], socketio_emit call).
Proof.
  intros Hclient Hserver Hattach Hnew Hrender call.
  unfold DuplexEvent.attach_name in Hattach.
  destruct pair; simpl in Hclient, Hserver, Hattach. subst.
  simpl in Hattach. injection Hattach as <-.
  assert (Hemit :
    ServerEvent.emit (ServerEvent.attach_name se X) room include_self VNone namespace
      kwargs = ([Emitted call], socketio_emit call)).
  { unfold ServerEvent.emit, ServerEvent.attach_name, ServerEvent.set_event,
      Event.attach_name.
    cbn [ServerEvent.event ServerEvent._emit_kwargs Event.model is_none].
    rewrite Hnew, bind_lift_Ok, Hrender, bind_lift_Ok. reflexivity. }
  unfold DuplexEvent.emit. simpl. rewrite Hemit. reflexivity.
Qed.

(** X12: constructing a pair without a name stores the two children as they
    are.  The namespace given to the constructor is kept by the pair and is
    not written to the children, so the pair and its children agree on the
    namespace exactly when the children already had it. *)
Theorem pair_constructor_keeps_children (ce : ClientEvent.t) (se : ServerEvent.t)
    (use_event : option bool) (namespace description : option string)
    (additional_docs : option Dict) :
  exists pair,
    DuplexEvent.__init__ (Some ce) (Some se) use_event namespace None description
      additional_docs = Ok pair /\
    assigned pair /\
    DuplexEvent.name pair = None /\
    DuplexEvent.namespace pair = namespace /\
    DuplexEvent.client_event pair = Bound (Some ce) /\
    DuplexEvent.server_event pair = Bound (Some se) /\
    (namespaces_agree pair <->
     Event.namespace (ClientEvent.event ce) = namespace /\
     Event.namespace (ServerEvent.event se) = namespace).
Proof.
  eexists. split; [reflexivity |].
  assert (Hassigned :
    assigned (DuplexEvent.assign_fields
                {| DuplexEvent.name := None;
                   DuplexEvent.namespace := namespace;
                   DuplexEvent.additional_docs := additional_docs;
                   DuplexEvent.client_event := Unset;
                   DuplexEvent.server_event := Unset;
                   DuplexEvent.description := Unset;
                   DuplexEvent.use_event := Unset |}
                (Some ce) (Some se) description (truthy use_event))).
  { unfold assigned. simpl. repeat split; eexists; reflexivity. }
  split; [exact Hassigned |].
  do 4 (split; [reflexivity |]).
  unfold namespaces_agree, client_field, server_field. simpl. split.
  - intros (_ & Hc & Hs). split; congruence.
  - intros [-> ->]. split; [exact Hassigned |]. split; reflexivity.
Qed.

End MoreServerFacts.

Lemma msg_without_text_is_not_sent :
  ServerEvent.emit msg_event (Some "r1") true VNone None [] =
  ([], Err (ValidationError "text: field required")).
Proof.
  exact (proj1
           (emit_failure_dispatches_nothing msg_event (Some "r1") None true []
              (ValidationError "text: field required"))
           eq_refl).
Defined.

Lemma msg_data_is_sent_as_given :
  ServerEvent.emit msg_event None false (VDict [("text", VStr "hi")]) (Some "/chat")
    [("text", VInt 3)] =
  ([Emitted {| emit_event := Some "message";
               emit_data := VDict [("text", VStr "hi")];
               emit_to := None;
               emit_include_self := false;
               emit_namespace := Some "/chat" |}],
   Ok VNone).
Proof.
  exact (emit_with_data_ignores_kwargs msg_event None (Some "/chat") false
           (VDict [("text", VStr "hi")]) (VDict [("text", VStr "hi")])
           [("text", VInt 3)] eq_refl eq_refl).
Defined.

Lemma ping_pair_emits_as_ping :
  exists named,
    DuplexEvent.attach_name ping_pair (Some "ping") = Ok named /\
    DuplexEvent.emit named (Some "r1") true VNone None [("value", VInt 1)] =
    ([Emitted {| emit_event := Some "ping";
                 emit_data := VDict [("value", VInt 1)];
                 emit_to := Some "r1";
                 emit_include_self := true;
                 emit_namespace := None |}],
     Ok VNone).
Proof.
  eexists. split; [reflexivity |].
  exact (pair_emits_under_attached_name ping_pair _ ping_event ping_server (Some "ping")
           (Some "r1") None true [("value", VInt 1)]
           (VInstance "Ping" [("value", VInt 1)]) (VDict [("value", VInt 1)])
           eq_refl eq_refl eq_refl eq_refl eq_refl).
Defined.

(** * Documentation, once more *)

Lemma first_shared_key_found (k : string) (a b : Dict) :
  dict_has k a = true ->
  dict_has k b = true ->
  exists shared,
    first_shared_key a b = Some shared /\
    dict_has shared a = true /\
    dict_has shared b = true.
Proof.
  intros Ha Hb. induction b as [| [k' v] rest IH]; [discriminate |].
  simpl. destruct (dict_has k' a) eqn:Hk'.
  - exists k'. repeat split; try assumption.
    unfold dict_has. simpl. rewrite String.eqb_refl. reflexivity.
  - assert (Hrest : dict_has k rest = true).
    { unfold dict_has in Hb |- *. simpl in Hb.
      destruct (String.eqb_spec k k') as [-> | _]; [congruence | exact Hb]. }
    destruct (IH Hrest) as (shared & Hfound & Hina & Hinb).
    exists shared. repeat split; try assumption.
    unfold dict_has in Hinb |- *. simpl.
    destruct (String.eqb shared k'); [reflexivity | exact Hinb].
Qed.

Lemma dict_get_set_same (k : string) (v : Value) (d : Dict) :
  dict_get k (dict_set k v d) = Some v.
Proof.
  induction d as [| [k' v'] rest IH]; simpl.
  - rewrite String.eqb_refl. reflexivity.
  - destruct (String.eqb_spec k k') as [<- | Hne]; simpl.
    + rewrite String.eqb_refl. reflexivity.
    + destruct (String.eqb_spec k k'); [contradiction | exact IH].
Qed.

Lemma dict_get_absent_key (k : string) (d : Dict) :
  ~ In k (map fst d) -> dict_get k d = None.
Proof.
  induction d as [| [k' v] rest IH]; simpl; [reflexivity |].
  intros Hnot. destruct (String.eqb_spec k k') as [-> | _].
  - exfalso. apply Hnot. left. reflexivity.
  - apply IH. intros Hin. apply Hnot. right. exact Hin.
Qed.

Lemma dict_get_update (k : string) (other d : Dict) :
  NoDup (map fst other) ->
  dict_get k (dict_update d other) =
  match dict_get k other with
  | Some v => Some v
  | None => dict_get k d
  end.
Proof.
  unfold dict_update. revert d.
  induction other as [| [k' v'] rest IH]; intros d Hunique; simpl; [reflexivity |].
  inversion Hunique as [| ? ? Hfresh Hrest]; subst.
  rewrite IH by exact Hrest.
  destruct (String.eqb_spec k k') as [-> | Hne].
  - rewrite (dict_get_absent_key k' rest Hfresh). apply dict_get_set_same.
  - rewrite dict_get_set_other by exact Hne. reflexivity.
Qed.

Section MoreDocFacts.
Context `{SchemaLayer}.

(** X13: [Event.create_doc] raises [TypeError] whenever the event's stored
    extras and the extras of the call have a key in common: the two
    mappings are unpacked into one call, and a keyword cannot be given
    twice. *)
Theorem create_doc_refuses_shared_key (e : Event.t) (ns : option string)
    (extra : option Dict) (k : string) :
  dict_has k (or_empty (Event.additional_docs e)) = true ->
  dict_has k (or_empty extra) = true ->
  exists shared,
    dict_has shared (or_empty (Event.additional_docs e)) = true /\
    dict_has shared (or_empty extra) = true /\
    Event.create_doc e ns extra =
    Err (TypeError ("got multiple values for keyword argument " ++ shared)).
Proof.
  intros Hstored Hextra.
  destruct (first_shared_key_found k _ _ Hstored Hextra) as (shared & Hfound & Ha & Hb).
  exists shared. repeat split; try assumption.
  unfold Event.create_doc, merge_kwargs. rewrite Hfound. reflexivity.
Qed.

(** X14: the reference under [message] names the schema by its declared
    name, and by its type name when no name is declared or the declared name
    is empty (as long as the extras do not set [message] themselves). *)
Theorem create_doc_message_reference (e : Event.t) (ns : option string)
    (extra : option Dict) (doc : Dict) :
  Event.create_doc e ns extra = Ok doc ->
  dict_has "message" (or_empty (Event.additional_docs e)) = false ->
  dict_has "message" (or_empty extra) = false ->
  exists schema_name,
    dict_get "message" doc =
      Some (VDict [("$ref", VStr ("#/components/messages/" ++ schema_name))]) /\
    (forall declared,
        model_name_attr (Event.model e) = Some declared ->
        declared <> "" -> schema_name = declared) /\
    (model_name_attr (Event.model e) = None \/
     model_name_attr (Event.model e) = Some "" ->
     schema_name = model_type_name (Event.model e)).
Proof.
  unfold Event.create_doc. intros Hdoc Hstored Hextra.
  destruct (merge_kwargs _ _) as [kwargs | err] eqn:Hmerge; [| discriminate].
  apply merge_kwargs_Ok in Hmerge. simpl in Hdoc. injection Hdoc as <-.
  exists (Event.model_name e). split; [| split].
  - unfold remove_none. apply dict_get_filter; [| reflexivity].
    rewrite dict_get_update_absent by (subst kwargs; apply dict_has_app; assumption).
    reflexivity.
  - intros declared Hdeclared Hnonempty. unfold Event.model_name. rewrite Hdeclared.
    destruct declared; [contradiction | reflexivity].
  - intros [Hnone | Hempty]; unfold Event.model_name.
    + rewrite Hnone. reflexivity.
    + rewrite Hempty. reflexivity.
Qed.

(** X15: [DuplexEvent.create_doc] leaves in the caller's dictionary every
    extra the pair stores, over whatever the caller had under the same key,
    and keeps the caller's other entries. *)
Theorem pair_extras_overwrite_the_callers (pair : DuplexEvent.t) (ns : option string)
    (docs stored : Dict) :
  DuplexEvent.additional_docs pair = Some stored ->
  NoDup (map fst stored) ->
  exists after,
    fst (DuplexEvent.create_doc pair ns (Some docs)) = Some after /\
    forall k,
      dict_get k after =
      match dict_get k stored with
      | Some v => Some v
      | None => dict_get k docs
      end.
Proof.
  intros Hstored Hunique.
  exists (dict_update docs stored). split.
  - unfold DuplexEvent.create_doc. rewrite Hstored. reflexivity.
  - intros k. apply dict_get_update. exact Hunique.
Qed.

(** X16: a combined document has the key [publish] with the client event's
    descriptor, the key [subscribe] with the server event's, both built with
    the merged extras, and the key [description] exactly when the pair has a
    description; it has no other key. *)
Theorem pair_doc_shape (pair : DuplexEvent.t) (ns : option string) (docs doc : Dict) :
  snd (DuplexEvent.create_doc pair ns (Some docs)) = Ok doc ->
  exists ce se descr publish subscribe,
    DuplexEvent.client_event pair = Bound (Some ce) /\
    DuplexEvent.server_event pair = Bound (Some se) /\
    DuplexEvent.description pair = Bound descr /\
    let merged := dict_update docs (or_empty (DuplexEvent.additional_docs pair)) in
    Event.create_doc (ClientEvent.event ce) ns (Some merged) = Ok publish /\
    Event.create_doc (ServerEvent.event se) ns (Some merged) = Ok subscribe /\
    doc =
    [("publish", VDict publish); ("subscribe", VDict subscribe)]
    ++ match descr with
       | Some text => [("description", VStr text)]
       | None => []
       end.
Proof.
  unfold DuplexEvent.create_doc. cbn [snd].
  destruct (DuplexEvent.client_event pair) as [| [ce |]]; try discriminate.
  simpl. unfold ClientEvent.create_doc.
  destruct (Event.create_doc (ClientEvent.event ce) ns _) as [publish | err] eqn:Hpublish;
    simpl; try discriminate.
  destruct (DuplexEvent.server_event pair) as [| [se |]]; simpl; try discriminate.
  unfold ServerEvent.create_doc.
  destruct (Event.create_doc (ServerEvent.event se) ns _) as [subscribe | err] eqn:Hsubscribe;
    simpl; try discriminate.
  destruct (DuplexEvent.description pair) as [| descr]; simpl; try discriminate.
  intros Hdoc. injection Hdoc as <-.
  exists ce, se, descr, publish, subscribe.
  repeat split; try assumption. destruct descr; reflexivity.
Qed.

End MoreDocFacts.

Lemma shared_summary_is_refused :
  exists shared,
    dict_has shared [("summary", VStr "stored")] = true /\
    dict_has shared [("tags", VList []); ("summary", VStr "given")] = true /\
    Event.create_doc
      (Event.__init__ Ping None None None (Some [("summary", VStr "stored")]))
      (Some "chat") (Some [("tags", VList []); ("summary", VStr "given")]) =
    Err (TypeError ("got multiple values for keyword argument " ++ shared)).
Proof.
  exact (create_doc_refuses_shared_key
           (Event.__init__ Ping None None None (Some [("summary", VStr "stored")]))
           (Some "chat") (Some [("tags", VList []); ("summary", VStr "given")])
           "summary" eq_refl eq_refl).
Defined.

Lemma ping_message_reference :
  exists doc schema_name,
    Event.create_doc chat_event None None = Ok doc /\
    dict_get "message" doc =
      Some (VDict [("$ref", VStr ("#/components/messages/" ++ schema_name))]) /\
    schema_name = "Ping".
Proof.
  eexists.
  destruct (create_doc_message_reference chat_event None None _ eq_refl eq_refl eq_refl)
    as (schema_name & Hmessage & _ & Htype).
  exists schema_name. split; [reflexivity |]. split; [exact Hmessage |].
  apply Htype. left. reflexivity.
Defined.

Lemma documented_pair_overwrites_deprecated :
  exists after,
    fst (DuplexEvent.create_doc documented_pair None
           (Some [("deprecated", VBool false); ("summary", VStr "ping")])) = Some after /\
    dict_get "deprecated" after = Some (VBool true) /\
    dict_get "summary" after = Some (VStr "ping").
Proof.
  assert (Hunique : NoDup (map fst [("deprecated", VBool true)])).
  { simpl. constructor; [intros [] | constructor]. }
  destruct (pair_extras_overwrite_the_callers documented_pair None
              [("deprecated", VBool false); ("summary", VStr "ping")]
              [("deprecated", VBool true)] eq_refl Hunique) as (after & Hafter & Hget).
  exists after. split; [exact Hafter |].
  split; [apply (Hget "deprecated") | apply (Hget "summary")].
Defined.

Lemma documented_pair_doc_shape :
  exists publish subscribe,
    snd (DuplexEvent.create_doc documented_pair (Some "chat") (Some [])) =
    Ok [("publish", VDict publish);
        ("subscribe", VDict subscribe);
        ("description", VStr "ping and its echo")].
Proof.
  destruct (pair_doc_shape documented_pair (Some "chat") [] _ eq_refl)
    as (ce & se & descr & publish & subscribe & Hc & Hs & Hd & _ & _ & Hdoc).
  injection Hd as <-.
  exists publish, subscribe. simpl in Hdoc. rewrite <- Hdoc. reflexivity.
Defined.

(** The same pair over a client event with the acknowledgment schema
    [Pong{value:int}] and [force_wrap]: the handler's answer, which carries
    the keyword [event] too, is rendered against the schema. *)
Example eventful_pong_pair_renders :
  let pair :=
    DuplexEvent.assign_fields eventful_pair (Some pong_event) (Some ping_server) None true in
  exists pair' ce',
    DuplexEvent.bind pair (UserFunction echo_kwargs) = Ok pair' /\
    DuplexEvent.client_event pair' = Bound (Some ce') /\
    ClientEvent.invoke ce' (VDict [("value", VInt 1)]) =
    ([Called "echo" [] [("event", VObject "DuplexEvent"); ("value", VInt 1)]],
     Ok (VDict [("data", VDict [("value", VInt 1)])])).
Proof. eexists. eexists. repeat split. Qed.
